(** * The YOLOv5 .pt -> .onnx export shim (README.py)

    A shallow embedding of the script: the interpreter state the script
    touches ([sys.modules], module objects, [sys.path], [os.environ],
    [sys.argv]) is an explicit record, every Python function of the script
    is a computation in a small state-and-exception monad with an event log,
    and third-party code (the [onnx] import, the framework's [export.py]) is
    an opaque state transformer supplied by the host. *)

From Stdlib Require Import Ascii.
From stdpp Require Import gmap strings list fin_maps pretty.

Open Scope string_scope.

(** ** Strings and [os.path] (POSIX flavour, the script targets a Raspberry Pi) *)

Module PosixPath.

Definition sep : ascii := "/"%char.

(** [s.endswith('/')] *)
Fixpoint endswith_sep (s : string) : bool :=
  match s with
  | EmptyString => false
  | String c EmptyString => bool_decide (c = sep)
  | String _ rest => endswith_sep rest
  end.

(** [s.rstrip('/')] *)
Fixpoint rstrip_sep (s : string) : string :=
  match s with
  | EmptyString => EmptyString
  | String c rest =>
      match rstrip_sep rest with
      | EmptyString => if bool_decide (c = sep) then EmptyString else String c EmptyString
      | rest' => String c rest'
      end
  end.

(** [s.find('/', 1)], with [len(s)] when there is none *)
Definition find_sep_from_1 (s : string) : nat :=
  match String.index 1 "/" s with
  | Some i => i
  | None => String.length s
  end.

(** [s[i:]] *)
Definition drop (i : nat) (s : string) : string :=
  String.substring i (String.length s - i) s.

(** [posixpath.join(a, b)] for one extra component:
<<
    if b.startswith(sep): path = b
    elif not path or path.endswith(sep): path += b
    else: path += sep + b
>> *)
Definition join (a b : string) : string :=
  if String.prefix "/" b then b
  else if bool_decide (a = "") || endswith_sep a then a ++ b
  else a ++ "/" ++ b.

Section Expanduser.

(** The password database: the home directory of the current user
    ([pwd.getpwuid(os.getuid()).pw_dir]) and of a named user
    ([pwd.getpwnam(name).pw_dir]); [None] stands for the [KeyError]. *)
Variable getpwuid_dir : option string.
Variable getpwnam_dir : string -> option string.

(** [posixpath.expanduser(path)], reading [HOME] from [os.environ]. *)
Definition expanduser (environ : gmap string string) (path : string) : string :=
  if negb (String.prefix "~" path) then path
  else
    let i := find_sep_from_1 path in
    let userhome :=
      if bool_decide (i = 1%nat) then
        match environ !! "HOME" with
        | Some h => Some h
        | None => getpwuid_dir
        end
      else getpwnam_dir (String.substring 1 (i - 1) path) in
    match userhome with
    | None => path
    | Some h =>
        let r := rstrip_sep h ++ drop i path in
        if bool_decide (r = "") then "/" else r
    end.

End Expanduser.

End PosixPath.

(** [str(n)] for a Python [int]: decimal digits, with a leading minus sign
    for negative numbers. *)
Definition py_str (n : Z) : string := pretty n.

(** [sep.join(parts)] *)
Definition str_join (sep : string) (parts : list string) : string :=
  String.concat sep parts.

(** ** Python objects and the interpreter state *)

(** Object identities. *)
Definition loc := positive.

#[local] Set Warnings "-register-all".

(** The values the script stores into attributes. [VRef] is a reference to
    an object (a class such as [pathlib.PosixPath], a module, ...), compared
    by identity; [VNamespace] is a [types.SimpleNamespace]; [VClass] and
    [VFunc] are the class [_DF] and the function [_noop] that
    [stub_optional_packages] defines locally. *)
Inductive value :=
| VNone
| VInt (n : Z)
| VStr (s : string)
| VRef (l : loc)
| VNamespace (fields : list (string * value))
| VClass (qualname : string)
| VFunc (qualname : string).

(** What [sys.modules] may hold: a module (an object with a writable
    attribute dictionary), or [None], which blocks the import of that name
    and rejects attribute assignment. *)
Inductive pyobj :=
| PyModule (attrs : gmap string value)
| PyNone.

Record state := State {
  sys_modules : gmap string loc;      (* sys.modules *)
  heap : gmap loc pyobj;              (* the objects behind the references *)
  sys_path : list string;             (* sys.path *)
  environ : gmap string string;       (* os.environ *)
  sys_argv : list string              (* sys.argv *)
}.

Definition set_sys_modules (f : gmap string loc -> gmap string loc) (st : state) : state :=
  State (f (sys_modules st)) (heap st) (sys_path st) (environ st) (sys_argv st).
Definition set_heap (f : gmap loc pyobj -> gmap loc pyobj) (st : state) : state :=
  State (sys_modules st) (f (heap st)) (sys_path st) (environ st) (sys_argv st).
Definition set_sys_path (f : list string -> list string) (st : state) : state :=
  State (sys_modules st) (heap st) (f (sys_path st)) (environ st) (sys_argv st).
Definition set_environ (f : gmap string string -> gmap string string) (st : state) : state :=
  State (sys_modules st) (heap st) (sys_path st) (f (environ st)) (sys_argv st).
Definition set_sys_argv (f : list string -> list string) (st : state) : state :=
  State (sys_modules st) (heap st) (sys_path st) (environ st) (f (sys_argv st)).

(** ** Exceptions and the exit status of the process *)

(** The argument of [SystemExit]: nothing, an integer, or another object
    (the script passes diagnostics as strings). *)
Inductive exit_code :=
| ExitNone
| ExitInt (n : Z)
| ExitObj (msg : string).

(** [SystemExit], another direct [BaseException] subclass, or an instance
    of (a subclass of) [Exception]: only the last kind is caught by
    [except Exception]. *)
Inductive exn :=
| SystemExit (code : exit_code)
| BaseExc (cls : string)
| Exception (cls : string) (msg : string).

Definition is_Exception (e : exn) : bool :=
  match e with
  | Exception _ _ => true
  | _ => false
  end.

Inductive result (A : Type) :=
| Ok (a : A)
| Raise (e : exn).
Arguments Ok {A} a.
Arguments Raise {A} e.

(** The status an exception leaving the main module gives the process:
    [SystemExit] carries it (no argument is success, an integer is passed
    to [exit], of which the system keeps the low eight bits, any other
    object is printed and gives 1); every other exception prints a
    traceback and fails. Two corners are only approximated: an integer
    outside the range of a C [long] (CPython exits with 255), and
    [KeyboardInterrupt] (CPython ends the process by [SIGINT]; here it
    counts as a failure, 1). The properties below rely on zero against
    non-zero, and on 1 for the script's own diagnostics. *)
Definition exn_status (e : exn) : Z :=
  match e with
  | SystemExit ExitNone => 0
  | SystemExit (ExitInt n) => n `mod` 256
  | SystemExit (ExitObj _) => 1
  | BaseExc _ => 1
  | Exception _ _ => 1
  end.

Definition exit_status {A} (r : result A) : Z :=
  match r with
  | Ok _ => 0
  | Raise e => exn_status e
  end.

(** ** Computations *)

(** What the script does that is visible from outside: a line printed by
    the script itself, and the hand-over to [runpy.run_path], recorded with
    the interpreter state at that moment ([sys.argv], [os.environ], ...). *)
Inductive event :=
| EvPrint (line : string)
| EvRunPath (path : string) (st : state).

Record run (A : Type) := Run {
  log : list event;
  final : state;
  res : result A
}.
Arguments Run {A} log final res.
Arguments log {A} r.
Arguments final {A} r.
Arguments res {A} r.

Definition Py (A : Type) : Type := state -> run A.

Definition ret {A} (a : A) : Py A := fun st => Run [] st (Ok a).

Definition bind {A B} (m : Py A) (k : A -> Py B) : Py B := fun st =>
  let r := m st in
  match res r with
  | Ok a => let r' := k a (final r) in Run (log r ++ log r') (final r') (res r')
  | Raise e => Run (log r) (final r) (Raise e)
  end.

Declare Scope py_scope.
Delimit Scope py_scope with py.
Notation "'let*' x := m 'in' k" := (bind m (fun x => k))
  (at level 10, x name, m at level 200, k at level 200) : py_scope.
Notation "m ;;; k" := (bind m (fun _ => k))
  (at level 100, k at level 200, right associativity) : py_scope.
Open Scope py_scope.

Definition raise {A} (e : exn) : Py A := fun st => Run [] st (Raise e).

Definition gets {A} (f : state -> A) : Py A := fun st => Run [] st (Ok (f st)).

Definition modify (f : state -> state) : Py unit := fun st => Run [] (f st) (Ok tt).

(** [print(line)] on a standard output that takes the line; the writes of
    [print], each of which can raise, are in [Whole.print] below. *)
Definition print (line : string) : Py unit := fun st => Run [EvPrint line] st (Ok tt).

(** [try: body / except Exception: handler]. The handler runs in the state
    the body left behind; other exceptions pass through. *)
Definition try_except_Exception {A} (body handler : Py A) : Py A := fun st =>
  let r := body st in
  match res r with
  | Ok a => r
  | Raise e =>
      if is_Exception e then
        let r' := handler (final r) in Run (log r ++ log r') (final r') (res r')
      else r
  end.

(** Code that is not the script's own (an imported package's top level, the
    framework's export script): an arbitrary state transformer that returns
    or raises. It writes nothing to the script's log. *)
Definition foreign {A} (f : state -> state * result A) : Py A := fun st =>
  Run [] (f st).1 (f st).2.

(** [for x in xs: body(x)] *)
Fixpoint for_each {A} (xs : list A) (body : A -> Py unit) : Py unit :=
  match xs with
  | [] => ret tt
  | x :: xs' => body x ;;; for_each xs' body
  end.

(** *** Attribute access *)

Definition AttributeError (name : string) : exn := Exception "AttributeError" name.

(** [hasattr(o, name)] *)
Definition hasattr (o : loc) (name : string) : Py bool :=
  gets (fun st =>
    match heap st !! o with
    | Some (PyModule attrs) => bool_decide (is_Some (attrs !! name))
    | _ => false
    end).

(** [o.name] *)
Definition getattr (o : loc) (name : string) : Py value := fun st =>
  match heap st !! o with
  | Some (PyModule attrs) =>
      match attrs !! name with
      | Some v => Run [] st (Ok v)
      | None => Run [] st (Raise (AttributeError name))
      end
  | _ => Run [] st (Raise (AttributeError name))
  end.

(** [o.name = v] *)
Definition setattr (o : loc) (name : string) (v : value) : Py unit := fun st =>
  match heap st !! o with
  | Some (PyModule attrs) =>
      Run [] (set_heap (insert o (PyModule (<[name := v]> attrs))) st) (Ok tt)
  | _ => Run [] st (Raise (AttributeError name))
  end.

(** [types.ModuleType(fullname)]: a new module object, whose only
    attributes are the ones every module starts with. *)
Definition new_module_attrs (fullname : string) : gmap string value :=
  <["__name__" := VStr fullname]>
    (<["__doc__" := VNone]>
      (<["__package__" := VNone]>
        (<["__loader__" := VNone]>
          (<["__spec__" := VNone]> ∅)))).

Definition ModuleType (fullname : string) : Py loc := fun st =>
  let l := fresh (dom (heap st)) in
  Run [] (set_heap (insert l (PyModule (new_module_attrs fullname))) st) (Ok l).

(** [d.setdefault(k, v)] on a dictionary, as a pure function *)
Definition dict_setdefault {V} (k : string) (v : V) (d : gmap string V) : gmap string V :=
  match d !! k with
  | Some _ => d
  | None => <[k := v]> d
  end.

(** ** The host: operating system, file system and third-party code *)

Record host := Host {
  os_name : string;                                   (* os.name *)
  getpwuid_dir : option string;
  getpwnam_dir : string -> option string;
  isfile : string -> bool;                            (* os.path.isfile *)
  isdir : string -> bool;                             (* os.path.isdir *)
  pathlib : loc;                                      (* the module bound by [import pathlib] *)
  find_and_load : string -> state -> state * result loc;
      (* the import machinery for a name that is not in sys.modules *)
  run_export : string -> state -> state * result unit
      (* runpy.run_path(path, run_name='__main__') *)
}.

(** The command line after [argparse]: the [Namespace] that
    [ap.parse_args()] returns. *)
Record Namespace := Args {
  weights : string;
  imgsz : Z;
  opset : Z;
  dynamic : bool;
  simplify : bool
}.

(** The flags as given on the command line; [--imgsz] and [--opset] have
    defaults, [--dynamic] and [--simplify] are [store_true] flags. *)
Record cli := Cli {
  cli_weights : string;
  cli_imgsz : option Z;
  cli_opset : option Z;
  cli_dynamic : bool;
  cli_simplify : bool
}.

Definition parse_args (c : cli) : Namespace :=
  Args (cli_weights c) (default 640%Z (cli_imgsz c)) (default 12%Z (cli_opset c))
       (cli_dynamic c) (cli_simplify c).

(** ** The script *)

Section Script.

Variable H : host.

(** [os.path.expanduser(path)] as a read of [os.environ] and of the
    password database; the import of [pwd] that the library does before it
    asks the database is in [Whole.expanduser] below. *)
Definition expanduser (path : string) : Py string :=
  gets (fun st => PosixPath.expanduser (getpwuid_dir H) (getpwnam_dir H) (environ st) path).

(** [import name]: a name in [sys.modules] is returned as it is, unless the
    entry is [None]; otherwise the finders and loaders run. *)
Definition py_import (name : string) : Py loc := fun st =>
  match sys_modules st !! name with
  | Some l =>
      match heap st !! l with
      | Some PyNone => Run [] st (Raise (Exception "ModuleNotFoundError" name))
      | _ => Run [] st (Ok l)
      end
  | None => foreign (find_and_load H name) st
  end.

(** [runpy.run_path(path, run_name='__main__')] *)
Definition runpy_run_path (path : string) : Py unit := fun st =>
  Run [EvRunPath path st] (run_export H path st).1 (run_export H path st).2.

Definition ERR_no_repo (repo : string) : string := "[ERR] 找不到 YOLOv5 目錄：" ++ repo.
Definition ERR_no_weights (w : string) : string := "[ERR] 找不到權重：" ++ w.
Definition ERR_no_onnx : string := "[ERR] 尚未安裝 onnx，請先：pip install onnx".
Definition INFO_calling : string := "[info] 呼叫 yolov5/export.py：".
Definition OK_done : string :=
  String (ascii_of_nat 10) "[OK] 轉檔完成（.onnx 會與 .pt 同資料夾）。".

Definition ensure_repo_on_path : Py string :=
  let* repo := expanduser "~/yolov5" in
  (if negb (isdir H repo) then raise (SystemExit (ExitObj (ERR_no_repo repo))) else ret tt) ;;;
  let* path := gets sys_path in
  (if bool_decide (repo ∈ path) then ret tt
   else modify (set_sys_path (fun p => repo :: p))) ;;;
  ret repo.

(** [hasattr] has no effect, so asking it before the test of [os.name]
    is the same as Python's short-circuit [and]. *)
Definition patch_pathlib_only : Py unit :=
  modify (set_sys_modules (dict_setdefault "pathlib._local" (pathlib H))) ;;;
  let* has := hasattr (pathlib H) "WindowsPath" in
  if negb (bool_decide (os_name H = "nt")) && has then
    try_except_Exception
      (let* posix := getattr (pathlib H) "PosixPath" in
       setattr (pathlib H) "WindowsPath" posix)
      (ret tt)
  else ret tt.

Definition ensure_stub (fullname : string) : Py loc :=
  let* registry := gets sys_modules in
  match registry !! fullname with
  | Some m => ret m
  | None =>
      let* mod_ := ModuleType fullname in
      modify (set_sys_modules (insert fullname mod_)) ;;;
      ret mod_
  end.

Definition _DF : value := VClass "_DF".
Definition _noop : value := VFunc "_noop".

Definition stub_optional_packages : Py unit :=
  let* pd := ensure_stub "pandas" in
  try_except_Exception
    (let display_ns :=
       VNamespace [("max_columns", VInt 10); ("max_rows", VInt 60); ("max_colwidth", VInt 50)] in
     setattr pd "options" (VNamespace [("display", display_ns)]) ;;;
     setattr pd "DataFrame" _DF ;;;
     setattr pd "Series" _DF)
    (ret tt) ;;;
  let* mpl := ensure_stub "matplotlib" in
  let* mpl_colors := ensure_stub "matplotlib.colors" in
  let* mpl_ticker := ensure_stub "matplotlib.ticker" in
  let* mpl_transforms := ensure_stub "matplotlib.transforms" in
  let* plt := ensure_stub "matplotlib.pyplot" in
  setattr plt "figure" _noop ;;;
  setattr plt "plot" _noop ;;;
  setattr plt "imshow" _noop ;;;
  setattr plt "savefig" _noop ;;;
  setattr plt "close" _noop ;;;
  setattr plt "title" _noop ;;;
  setattr plt "subplot" _noop ;;;
  setattr plt "axis" _noop ;;;
  for_each
    ["seaborn"; "numexpr"; "bottleneck"; "scipy";
     "albumentations"; "pycocotools"; "thop";
     "cycler"; "pyparsing"]
    (fun name => ensure_stub name ;;; ret tt) ;;;
  ensure_stub "torchvision" ;;;
  ensure_stub "torchvision.transforms" ;;;
  ensure_stub "torchvision.transforms.functional" ;;;
  ret tt.

(** The argument vector of lines 123-133. *)
Definition export_argv (repo w : string) (args : Namespace) : list string :=
  [PosixPath.join repo "export.py";
   "--weights"; w;
   "--include"; "onnx";
   "--imgsz"; py_str (imgsz args);
   "--opset"; py_str (opset args)]
  ++ (if dynamic args then ["--dynamic"] else [])
  ++ (if simplify args then ["--simplify"] else []).

(** [main] from line 102 on, for the command line [args] that
    [ap.parse_args()] returned at line 100; [Whole.main] below starts at
    line 93. *)
Definition main (args : Namespace) : Py unit :=
  let* w := expanduser (weights args) in
  (if negb (isfile H w) then raise (SystemExit (ExitObj (ERR_no_weights w))) else ret tt) ;;;
  try_except_Exception
    (py_import "onnx" ;;; ret tt)
    (raise (SystemExit (ExitObj ERR_no_onnx))) ;;;
  patch_pathlib_only ;;;
  stub_optional_packages ;;;
  let* repo := ensure_repo_on_path in
  modify (set_environ (dict_setdefault "YOLOV5_AUTOINSTALL" "0")) ;;;
  modify (set_environ (dict_setdefault "ULTRALYTICS_NO_AUTOINSTALL" "1")) ;;;
  let argv := export_argv repo w args in
  print (str_join " " [INFO_calling; str_join " " argv]) ;;;
  modify (set_sys_argv (fun _ => argv)) ;;;
  runpy_run_path (PosixPath.join repo "export.py") ;;;
  print OK_done.

(** The calls of [runpy.run_path] in a log, each with the [sys.argv] it saw. *)
Definition invocations (l : list event) : list (string * list string) :=
  omap (fun ev => match ev with
                  | EvRunPath p st => Some (p, sys_argv st)
                  | EvPrint _ => None
                  end) l.

(** The lines the script printed. *)
Definition printed (l : list event) : list string :=
  omap (fun ev => match ev with
                  | EvPrint s => Some s
                  | EvRunPath _ _ => None
                  end) l.

End Script.

(** The names the Dependency Stubber registers. *)
Definition stub_list : list string :=
  ["pandas"; "matplotlib"; "matplotlib.colors"; "matplotlib.ticker";
   "matplotlib.transforms"; "matplotlib.pyplot"; "seaborn"; "numexpr";
   "bottleneck"; "scipy"; "albumentations"; "pycocotools"; "thop"; "cycler";
   "pyparsing"; "torchvision"; "torchvision.transforms";
   "torchvision.transforms.functional"].


(** ** Vocabulary for the properties *)

(** The object behind [l] is a module. *)
Definition is_module (st : state) (l : loc) : Prop :=
  exists attrs, heap st !! l = Some (PyModule attrs).

(** [name] is registered in [sys.modules], and as a module. *)
Definition registered (st : state) (name : string) : Prop :=
  exists l, sys_modules st !! name = Some l /\ is_module st l.

(** [st'] keeps every entry of [sys.modules] that [st] has, and every
    module of [st] is still a module. *)
Definition extends (st st' : state) : Prop :=
  (forall n l, sys_modules st !! n = Some l -> sys_modules st' !! n = Some l)
  /\ (forall l, is_module st l -> is_module st' l).

(** A computation that prints nothing, runs no script, and touches only
    the module registry and the objects, never removing or redirecting a
    registry entry; what it raises, if anything, is an [Exception]. *)
Definition quiet {A} (m : Py A) : Prop :=
  forall st,
    log (m st) = []
    /\ sys_path (final (m st)) = sys_path st
    /\ environ (final (m st)) = environ st
    /\ sys_argv (final (m st)) = sys_argv st
    /\ extends st (final (m st))
    /\ (forall e, res (m st) = Raise e -> is_Exception e = true).

(** From a state satisfying [P], [m] returns normally with a value and a
    state satisfying [Q]. *)
Definition returns {A} (P : state -> Prop) (m : Py A) (Q : A -> state -> Prop) : Prop :=
  forall st, P st -> exists a, res (m st) = Ok a /\ Q a (final (m st)).

(** The attribute [name] of the object [l], if it has one. *)
Definition attr_of (st : state) (l : loc) (name : string) : option value :=
  match heap st !! l with
  | Some (PyModule attrs) => attrs !! name
  | _ => None
  end.

(** Is [e] a [SystemExit]? *)
Definition is_SystemExit (e : exn) : bool :=
  match e with
  | SystemExit _ => true
  | _ => false
  end.

(** The invariant of the Dependency Stubber: no name of its list is
    registered as anything but a module, the names in [done] are
    registered, and the objects in [mods] are modules. *)
Definition stubbed (stub_names done : list string) (mods : list loc) (st : state) : Prop :=
  (forall n l, In n stub_names -> sys_modules st !! n = Some l -> is_module st l)
  /\ (forall n, In n done -> registered st n)
  /\ (forall l, In l mods -> is_module st l).

(** *** The stages of [main], named

    These name the intermediate states of a run; [main_eq] below proves
    that [main] goes through exactly them. *)

Section Stages.

Variable H : host.

(** The expansion of [--weights] (line 102). *)
Definition weights_path (args : Namespace) (st : state) : string :=
  PosixPath.expanduser (getpwuid_dir H) (getpwnam_dir H) (environ st) (weights args).

(** The expansion of [~/yolov5] (line 7). *)
Definition repo_dir (st : state) : string :=
  PosixPath.expanduser (getpwuid_dir H) (getpwnam_dir H) (environ st) "~/yolov5".

(** The state after [import onnx]. *)
Definition after_import (st : state) : state := final (py_import H "onnx" st).

(** The run of the Dependency Stubber inside [main], after the patch. *)
Definition stub_run (st : state) : run unit :=
  stub_optional_packages (final (patch_pathlib_only H (after_import st))).

(** The state in which [runpy.run_path] is entered. *)
Definition handoff (args : Namespace) (st : state) : state :=
  let st3 := final (stub_run st) in
  set_sys_argv (fun _ => export_argv (repo_dir st3) (weights_path args st) args)
    (set_environ (dict_setdefault "ULTRALYTICS_NO_AUTOINSTALL" "1")
      (set_environ (dict_setdefault "YOLOV5_AUTOINSTALL" "0")
        (final (ensure_repo_on_path H st3)))).

Definition main_stages (args : Namespace) (st : state) : run unit :=
  let w := weights_path args st in
  if negb (isfile H w) then Run [] st (Raise (SystemExit (ExitObj (ERR_no_weights w))))
  else
    match res (py_import H "onnx" st) with
    | Raise e =>
        Run [] (after_import st)
            (Raise (if is_Exception e then SystemExit (ExitObj ERR_no_onnx) else e))
    | Ok _ =>
        let st3 := final (stub_run st) in
        match res (stub_run st) with
        | Raise e => Run [] st3 (Raise e)
        | Ok _ =>
            let repo := repo_dir st3 in
            if negb (isdir H repo) then
              Run [] st3 (Raise (SystemExit (ExitObj (ERR_no_repo repo))))
            else
              let sth := handoff args st in
              let p := PosixPath.join repo "export.py" in
              let info :=
                EvPrint (str_join " " [INFO_calling;
                                       str_join " " (export_argv repo w args)]) in
              match (run_export H p sth).2 with
              | Ok _ => Run [info; EvRunPath p sth; EvPrint OK_done] (run_export H p sth).1 (Ok tt)
              | Raise e => Run [info; EvRunPath p sth] (run_export H p sth).1 (Raise e)
              end
        end
    end.

End Stages.

(** ** A concrete machine, for examples

    A Raspberry Pi with user [pi]: home [/home/pi], the checkpoint
    [/home/pi/best.pt], the framework in [/home/pi/yolov5]; [pathlib] is
    object 1, its classes [PosixPath] and [WindowsPath] objects 2 and 3. *)

Module Demo.

Definition st0 : state :=
  State {[ "pathlib" := 1%positive ]}
        {[ 1%positive := PyModule {[ "PosixPath" := VRef 2%positive; "WindowsPath" := VRef 3%positive ]};
           2%positive := PyModule ∅;
           3%positive := PyModule ∅ ]}
        ["/home/pi"; "/usr/lib/python3.11"]
        {[ "HOME" := "/home/pi" ]}
        ["README.py"; "--weights"; "~/best.pt"].

(** A package that is installed: importing it registers a new module. *)
Definition load_installed (name : string) (st : state) : state * result loc :=
  let l := fresh (dom (heap st)) in
  (set_sys_modules (insert name l) (set_heap (insert l (PyModule ∅)) st), Ok l).

(** A package that is not installed. *)
Definition load_missing (name : string) (st : state) : state * result loc :=
  (st, Raise (Exception "ModuleNotFoundError" name)).

(** An export script that returns, and one that raises [e]. *)
Definition export_returns (path : string) (st : state) : state * result unit := (st, Ok tt).
Definition export_raises (e : exn) (path : string) (st : state) : state * result unit :=
  (st, Raise e).

Definition machine (load : string -> state -> state * result loc)
    (export : string -> state -> state * result unit) : host :=
  Host "posix" (Some "/home/pi") (fun _ => None)
       (fun p => bool_decide (p = "/home/pi/best.pt"))
       (fun p => bool_decide (p = "/home/pi/yolov5"))
       1%positive load export.

Definition pi : host := machine load_installed export_returns.

(** The same machine without the framework directory. *)
Definition pi_no_repo : host :=
  Host "posix" (Some "/home/pi") (fun _ => None)
       (fun p => bool_decide (p = "/home/pi/best.pt"))
       (fun _ => false)
       1%positive load_installed export_returns.

(** The same machine where the export script ends in [sys.exit(0)], and one
    where it fails with a [RuntimeError]. *)
Definition pi_exit0 : host := machine load_installed (export_raises (SystemExit (ExitInt 0))).
Definition pi_failing : host :=
  machine load_installed (export_raises (Exception "RuntimeError" "unsupported layer")).

(** The same machine without the [onnx] package. *)
Definition pi_no_onnx : host := machine load_missing export_returns.

(** [--weights ~/best.pt], and [--weights ~/missing.pt --dynamic]. *)
Definition args : Namespace := parse_args (Cli "~/best.pt" None None false false).

(** An interpreter in which [pathlib._local] already is a module of its
    own (object 4), as in Python 3.13. *)
Definition st_313 : state :=
  State {[ "pathlib" := 1%positive; "pathlib._local" := 4%positive ]}
        {[ 1%positive := PyModule {[ "PosixPath" := VRef 2%positive; "WindowsPath" := VRef 3%positive ]};
           2%positive := PyModule ∅;
           3%positive := PyModule ∅;
           4%positive := PyModule {[ "PosixPath" := VRef 2%positive; "WindowsPath" := VRef 3%positive ]} ]}
        ["/home/pi"; "/usr/lib/python3.13"]
        {[ "HOME" := "/home/pi" ]}
        ["README.py"; "--weights"; "~/best.pt"].

(** An interpreter started with [PYTHONPATH=/home/pi/yolov5]: the
    directory is on [sys.path], behind the script's own directory. *)
Definition st_pythonpath : state :=
  State {[ "pathlib" := 1%positive ]}
        {[ 1%positive := PyModule {[ "PosixPath" := VRef 2%positive; "WindowsPath" := VRef 3%positive ]};
           2%positive := PyModule ∅;
           3%positive := PyModule ∅ ]}
        ["/home/pi"; "/home/pi/yolov5"; "/usr/lib/python3.11"]
        {[ "HOME" := "/home/pi" ]}
        ["README.py"; "--weights"; "~/best.pt"].

(** An interpreter in which the real [pandas] (object 4) is loaded; its
    [DataFrame] class is object 5. *)
Definition st_pandas : state :=
  State {[ "pathlib" := 1%positive; "pandas" := 4%positive ]}
        {[ 1%positive := PyModule {[ "PosixPath" := VRef 2%positive; "WindowsPath" := VRef 3%positive ]};
           2%positive := PyModule ∅;
           3%positive := PyModule ∅;
           4%positive := PyModule {[ "__name__" := VStr "pandas"; "DataFrame" := VRef 5%positive ]};
           5%positive := PyModule {[ "__name__" := VStr "DataFrame" ]} ]}
        ["/home/pi"; "/usr/lib/python3.11"]
        {[ "HOME" := "/home/pi" ]}
        ["README.py"; "--weights"; "~/best.pt"].

End Demo.

(** ** Vocabulary for the properties of the single functions *)

(** A triple for computations that may raise: from a state satisfying
    [P], either [m] returns [a] in a state satisfying [Q a], or it raises
    [e] in a state satisfying [E e]. *)
Definition hoare {A} (P : state -> Prop) (m : Py A)
    (Q : A -> state -> Prop) (E : exn -> state -> Prop) : Prop :=
  forall st, P st ->
    match res (m st) with
    | Ok a => Q a (final (m st))
    | Raise e => E e (final (m st))
    end.

(** The state after [ensure_stub] has created the module for a name that
    was not registered (lines 33-34). *)
Definition with_new_stub (fullname : string) (st : state) : state :=
  set_sys_modules (insert fullname (fresh (dom (heap st))))
    (set_heap (insert (fresh (dom (heap st))) (PyModule (new_module_attrs fullname))) st).

(** The names in [names] are keys of [sys.modules]. *)
Definition keyed (names : list string) (st : state) : Prop :=
  forall n, In n names -> is_Some (sys_modules st !! n).

(** [matplotlib.pyplot] is not registered, or registered as a module. *)
Definition pyplot_usable (st : state) : Prop :=
  sys_modules st !! "matplotlib.pyplot" = None \/ registered st "matplotlib.pyplot".

Definition usable (names : list string) (st : state) : Prop :=
  pyplot_usable st /\ keyed names st.

(** The object [l] is still [o], unless [l] is what [pandas] or
    [matplotlib.pyplot] is registered as. *)
Definition kept_unless_patched (l : loc) (o : pyobj) (st : state) : Prop :=
  heap st !! l = Some o
  \/ sys_modules st !! "pandas" = Some l
  \/ sys_modules st !! "matplotlib.pyplot" = Some l.

(** [name] is registered as [l], and [l] has the attributes [kvs]. *)
Definition surface (name : string) (l : loc) (kvs : list (string * value)) (st : state) : Prop :=
  sys_modules st !! name = Some l
  /\ forall k v, In (k, v) kvs -> attr_of st l k = Some v.

(** [pandas.options] as the stubber sets it (lines 41-46). *)
Definition pandas_options : value :=
  VNamespace [("display",
               VNamespace [("max_columns", VInt 10); ("max_rows", VInt 60);
                           ("max_colwidth", VInt 50)])].

(** The functions the stubber puts on [matplotlib.pyplot] (lines 68-75). *)
Definition pyplot_functions : list string :=
  ["figure"; "plot"; "imshow"; "savefig"; "close"; "title"; "subplot"; "axis"].

(** The attributes the stubber assigns on [pandas] and on
    [matplotlib.pyplot], last assignment first. *)
Definition pandas_surface : list (string * value) :=
  [("Series", _DF); ("DataFrame", _DF); ("options", pandas_options)].

Definition pyplot_surface : list (string * value) :=
  [("axis", _noop); ("subplot", _noop); ("title", _noop); ("close", _noop);
   ("savefig", _noop); ("imshow", _noop); ("plot", _noop); ("figure", _noop)].

(** The names the stubber goes through after [matplotlib.pyplot]
    (lines 78-88). *)
Definition names_after_pyplot : list string :=
  ["seaborn"; "numexpr"; "bottleneck"; "scipy"; "albumentations"; "pycocotools";
   "thop"; "cycler"; "pyparsing"; "torchvision"; "torchvision.transforms";
   "torchvision.transforms.functional"].

(** [matplotlib.pyplot] is registered as [l], which is [None], and the
    names after it are registered as in [st0]. *)
Definition pyplot_blocked (st0 : state) (l : loc) (st : state) : Prop :=
  sys_modules st !! "matplotlib.pyplot" = Some l
  /\ heap st !! l = Some PyNone
  /\ forall n, In n names_after_pyplot -> sys_modules st !! n = sys_modules st0 !! n.

Section PatchFinal.

Variable H : host.

(** The state [patch_pathlib_only] ends in, as a function of the state it
    starts in; [patch_pathlib_only_eq] below proves it. *)
Definition patch_final (st : state) : state :=
  let st1 := set_sys_modules (dict_setdefault "pathlib._local" (pathlib H)) st in
  match heap st !! pathlib H with
  | Some (PyModule attrs) =>
      if negb (bool_decide (os_name H = "nt")) && bool_decide (is_Some (attrs !! "WindowsPath"))
      then match attrs !! "PosixPath" with
           | Some posix =>
               set_heap (insert (pathlib H) (PyModule (<["WindowsPath" := posix]> attrs))) st1
           | None => st1
           end
      else st1
  | _ => st1
  end.

End PatchFinal.

(** More machines and interpreter states for examples. *)
Module Cases.

(** A Windows machine. *)
Definition win : host :=
  Host "nt" (Some "/home/pi") (fun _ => None)
       (fun p => bool_decide (p = "/home/pi/best.pt"))
       (fun p => bool_decide (p = "/home/pi/yolov5"))
       1%positive Demo.load_installed Demo.export_returns.

(** A machine on which importing [onnx] is interrupted from the keyboard. *)
Definition load_interrupted (name : string) (st : state) : state * result loc :=
  (st, Raise (BaseExc "KeyboardInterrupt")).
Definition pi_interrupted : host := Demo.machine load_interrupted Demo.export_returns.

(** An interpreter in which [import matplotlib.pyplot] is blocked:
    [sys.modules['matplotlib.pyplot'] = None] (object 4). *)
Definition st_pyplot_blocked : state :=
  State {[ "pathlib" := 1%positive; "matplotlib.pyplot" := 4%positive ]}
        {[ 1%positive := PyModule {[ "PosixPath" := VRef 2%positive;
                                     "WindowsPath" := VRef 3%positive ]};
           2%positive := PyModule ∅;
           3%positive := PyModule ∅;
           4%positive := PyNone ]}
        ["/home/pi"; "/usr/lib/python3.11"]
        {[ "HOME" := "/home/pi" ]}
        ["README.py"; "--weights"; "~/best.pt"].

(** An interpreter whose [pathlib] has no [PosixPath] (a stripped-down
    build), and one whose [pathlib] has no [WindowsPath]. *)
Definition st_no_posix : state :=
  State {[ "pathlib" := 1%positive ]}
        {[ 1%positive := PyModule {[ "WindowsPath" := VRef 3%positive ]};
           3%positive := PyModule ∅ ]}
        ["/home/pi"] {[ "HOME" := "/home/pi" ]} ["README.py"].

(** The caller has set [YOLOV5_AUTOINSTALL=1]. *)
Definition st_autoinstall : state :=
  State {[ "pathlib" := 1%positive ]}
        {[ 1%positive := PyModule {[ "PosixPath" := VRef 2%positive;
                                     "WindowsPath" := VRef 3%positive ]};
           2%positive := PyModule ∅;
           3%positive := PyModule ∅ ]}
        ["/home/pi"; "/usr/lib/python3.11"]
        {[ "HOME" := "/home/pi"; "YOLOV5_AUTOINSTALL" := "1"; "LANG" := "C.UTF-8" ]}
        ["README.py"; "--weights"; "~/best.pt"].

End Cases.

(** ** The whole of [main], with the library code it runs

    The definitions above start [main] at the parsed command line
    (line 102), and take [os.path.expanduser] and [print] as they behave
    where [HOME] is set and the standard output takes every line. Here is
    [main] from its first line (lines 92-138), with what the library does
    on the way: the import of [argparse] and the parsing, which can end
    the process; the import of [pwd] inside [expanduser]; and the writes
    of [print], each of which can raise. In the log of these definitions
    an [EvPrint] is one text accepted by [sys.stdout.write]. *)

Module Whole.

(** Library code that is neither an import nor part of the host:
    [ap.parse_args()] on the parser built at lines 94-99 (it reads
    [sys.argv], and on [--help] or on a bad command line it writes a
    message and raises [SystemExit]), and [sys.stdout.write]. *)
Record library := Library {
  ap_parse_args : state -> state * result Namespace;
  stdout_write : string -> state -> state * result unit
}.

(** [ImportError] and its subclass. *)
Definition is_ImportError (e : exn) : bool :=
  match e with
  | Exception cls _ => bool_decide (cls = "ImportError") || bool_decide (cls = "ModuleNotFoundError")
  | _ => false
  end.

(** [try: body / except <class>: handler] *)
Definition try_except {A} (catches : exn -> bool) (body handler : Py A) : Py A := fun st =>
  let r := body st in
  match res r with
  | Ok a => r
  | Raise e =>
      if catches e then
        let r' := handler (final r) in Run (log r ++ log r') (final r') (res r')
      else r
  end.

(** [objects] with [sep] between them, as [print] writes them. *)
Fixpoint with_sep (sep : string) (objects : list string) : list string :=
  match objects with
  | [] => []
  | [x] => [x]
  | x :: rest => x :: sep :: with_sep sep rest
  end.

Definition newline : string := String (ascii_of_nat 10) "".

Section Script.

Variable H : host.
Variable L : library.

(** [posixpath.expanduser(path)]: as [PosixPath.expanduser], with the
    import of [pwd] that the library does when it has to ask the password
    database ([try: import pwd / except ImportError: return path]). *)
Definition expanduser (path : string) : Py string :=
  if negb (String.prefix "~" path) then ret path
  else
    let i := PosixPath.find_sep_from_1 path in
    let import_pwd : Py bool :=
      try_except is_ImportError (py_import H "pwd" ;;; ret true) (ret false) in
    let* userhome :=
      (if bool_decide (i = 1%nat) then
         let* env := gets environ in
         match env !! "HOME" with
         | Some h => ret (Some h)
         | None =>
             let* have_pwd := import_pwd in
             ret (if have_pwd : bool then getpwuid_dir H else None)
         end
       else
         let* have_pwd := import_pwd in
         ret (if have_pwd : bool
              then getpwnam_dir H (String.substring 1 (i - 1) path) else None)) in
    match userhome with
    | None => ret path
    | Some h =>
        let r := PosixPath.rstrip_sep h ++ PosixPath.drop i path in
        ret (if bool_decide (r = "") then "/" else r)
    end.

(** [sys.stdout.write(text)]; the log records what was written. *)
Definition write (text : string) : Py unit := fun st =>
  match (stdout_write L text st).2 with
  | Ok _ => Run [EvPrint text] (stdout_write L text st).1 (Ok tt)
  | Raise e => Run [] (stdout_write L text st).1 (Raise e)
  end.

(** [print] of several objects: one write for each object and each separator, and
    one for the end of the line. *)
Definition print (objects : list string) : Py unit :=
  for_each (with_sep " " objects ++ [newline])%list write.

Definition ensure_repo_on_path : Py string :=
  let* repo := expanduser "~/yolov5" in
  (if negb (isdir H repo) then raise (SystemExit (ExitObj (ERR_no_repo repo))) else ret tt) ;;;
  let* path := gets sys_path in
  (if bool_decide (repo ∈ path) then ret tt
   else modify (set_sys_path (fun p => repo :: p))) ;;;
  ret repo.

Definition main : Py unit :=
  py_import H "argparse" ;;;
  let* args := foreign (ap_parse_args L) in
  let* w := expanduser (weights args) in
  (if negb (isfile H w) then raise (SystemExit (ExitObj (ERR_no_weights w))) else ret tt) ;;;
  try_except_Exception
    (py_import H "onnx" ;;; ret tt)
    (raise (SystemExit (ExitObj ERR_no_onnx))) ;;;
  patch_pathlib_only H ;;;
  stub_optional_packages ;;;
  let* repo := ensure_repo_on_path in
  modify (set_environ (dict_setdefault "YOLOV5_AUTOINSTALL" "0")) ;;;
  modify (set_environ (dict_setdefault "ULTRALYTICS_NO_AUTOINSTALL" "1")) ;;;
  let argv := export_argv repo w args in
  print [INFO_calling; str_join " " argv] ;;;
  modify (set_sys_argv (fun _ => argv)) ;;;
  runpy_run_path H (PosixPath.join repo "export.py") ;;;
  print [OK_done].


(** *** Parts of [main], named for the properties *)





End Script.

(** A parser that returns [args], and one that ends the process as
    [argparse] does ([sys.exit(0)] after the help text of [--help],
    [sys.exit(2)] after the message for a bad command line); a standard
    output that takes every text, and one that cannot encode anything
    outside ASCII, as under an ASCII locale (the exception carries the text
    it was given). None of them touches the interpreter state. *)
Definition parsed (args : Namespace) (st : state) : state * result Namespace := (st, Ok args).
Definition parse_exits (code : Z) (st : state) : state * result Namespace :=
  (st, Raise (SystemExit (ExitInt code))).
Definition stdout_utf8 (text : string) (st : state) : state * result unit := (st, Ok tt).

Fixpoint is_ascii (text : string) : bool :=
  match text with
  | EmptyString => true
  | String c rest => (nat_of_ascii c <? 128)%nat && is_ascii rest
  end.

Definition stdout_ascii (text : string) (st : state) : state * result unit :=
  (st, if is_ascii text then Ok tt else Raise (Exception "UnicodeEncodeError" text)).

Definition cli_help : library := Library (parse_exits 0) stdout_utf8.
Definition cli_best_ascii : library := Library (parsed Demo.args) stdout_ascii.

(** The interpreter of [Demo.st0] started without [HOME] in its
    environment. *)
Definition st_no_home : state := set_environ (delete "HOME") Demo.st0.

End Whole.

(** A computation that writes nothing to the log: it prints nothing and
    hands over to no script. *)
Definition silent {A} (m : Py A) : Prop := forall st, log (m st) = [].

(** * Properties *)

(** ** Paths *)

Example endswith_sep_ex :
  PosixPath.endswith_sep "/home/pi/" = true /\ PosixPath.endswith_sep "/home/pi" = false.
Proof. split; reflexivity. Qed.

Example rstrip_sep_ex :
  PosixPath.rstrip_sep "/home/pi//" = "/home/pi" /\ PosixPath.rstrip_sep "/" = "".
Proof. split; reflexivity. Qed.

Example join_ex :
  PosixPath.join "/home/pi/yolov5" "export.py" = "/home/pi/yolov5/export.py"
  /\ PosixPath.join "/opt/" "export.py" = "/opt/export.py"
  /\ PosixPath.join "" "export.py" = "export.py".
Proof. repeat split; reflexivity. Qed.

Example expanduser_ex :
  PosixPath.expanduser None (fun _ => None) {[ "HOME" := "/home/pi" ]} "~/best.pt" = "/home/pi/best.pt"
  /\ PosixPath.expanduser None (fun _ => None) ∅ "~/best.pt" = "~/best.pt"
  /\ PosixPath.expanduser None (fun _ => None) {[ "HOME" := "/" ]} "~" = "/"
  /\ PosixPath.expanduser None (fun u => if bool_decide (u = "bob") then Some "/home/bob/" else None)
       ∅ "~bob/w.pt" = "/home/bob/w.pt"
  /\ PosixPath.expanduser None (fun _ => None) {[ "HOME" := "/home/pi" ]} "/tmp/w.pt" = "/tmp/w.pt".
Proof. repeat split; vm_compute; reflexivity. Qed.

Example py_str_ex : py_str 640 = "640" /\ py_str 12 = "12" /\ py_str (-3) = "-3" /\ py_str 0 = "0".
Proof. repeat split; vm_compute; reflexivity. Qed.

Example parse_args_defaults w d s :
  parse_args (Cli w None None d s) = Args w 640 12 d s.
Proof. reflexivity. Qed.

Lemma app_nonempty_r (x y : string) : y <> "" -> x ++ y <> "".
Proof. destruct x; simpl; [tauto | discriminate]. Qed.

Lemma endswith_sep_app (x y : string) :
  y <> "" -> PosixPath.endswith_sep (x ++ y) = PosixPath.endswith_sep y.
Proof.
  intros Hy. induction x as [| c x IH]; [reflexivity |].
  simpl. rewrite <- IH.
  destruct (x ++ y) eqn:E; [| reflexivity].
  exfalso. revert E. now apply app_nonempty_r.
Qed.

(** The framework directory is the expansion of [~/yolov5]: whatever the
    home directory is, and also when it cannot be found, the result ends
    in [/yolov5]. *)
Lemma expanduser_yolov5 uid nam (env : gmap string string) :
  exists x, PosixPath.expanduser uid nam env "~/yolov5" = x ++ "/yolov5".
Proof.
  unfold PosixPath.expanduser. cbn.
  rewrite (bool_decide_eq_true_2 (1 = 1)%nat) by reflexivity.
  assert (Hne : forall h, bool_decide (PosixPath.rstrip_sep h ++ "/yolov5" = "") = false).
  { intros h. apply bool_decide_eq_false. now apply app_nonempty_r. }
  destruct (env !! "HOME") as [h|]; [| destruct uid as [h|]].
  - rewrite Hne. eauto.
  - rewrite Hne. eauto.
  - exists "~". reflexivity.
Qed.

(** So joining it with [export.py] puts exactly one separator in between. *)
Lemma join_repo_export uid nam (env : gmap string string) :
  let repo := PosixPath.expanduser uid nam env "~/yolov5" in
  PosixPath.join repo "export.py" = repo ++ "/export.py".
Proof.
  cbv zeta. destruct (expanduser_yolov5 uid nam env) as [x ->].
  unfold PosixPath.join. cbn [String.prefix].
  rewrite endswith_sep_app by discriminate.
  rewrite bool_decide_eq_false_2 by (now apply app_nonempty_r).
  reflexivity.
Qed.

(** [expanduser] reads nothing of the environment but [HOME]. *)
Lemma expanduser_only_HOME uid nam (env env' : gmap string string) path :
  env !! "HOME" = env' !! "HOME" ->
  PosixPath.expanduser uid nam env path = PosixPath.expanduser uid nam env' path.
Proof. intros E. unfold PosixPath.expanduser. now rewrite E. Qed.

(** ** The state order and quiet computations *)

Lemma extends_refl st : extends st st.
Proof. split; auto. Qed.

Lemma extends_trans st1 st2 st3 : extends st1 st2 -> extends st2 st3 -> extends st1 st3.
Proof. intros [A1 B1] [A2 B2]. split; auto. Qed.

Lemma extends_registered st st' name :
  extends st st' -> registered st name -> registered st' name.
Proof. intros [A B] (l & Hl & Hm). exists l. auto. Qed.

Lemma is_module_insert st o attrs l :
  is_module st l -> is_module (set_heap (insert o (PyModule attrs)) st) l.
Proof.
  intros [a Ha]. unfold is_module. simpl.
  destruct (decide (o = l)) as [-> | Hne].
  - rewrite lookup_insert_eq. eauto.
  - rewrite lookup_insert_ne by done. eauto.
Qed.

Lemma extends_set_heap st o attrs :
  extends st (set_heap (insert o (PyModule attrs)) st).
Proof. split; [auto | intros l; apply is_module_insert]. Qed.

Lemma extends_setdefault st k l :
  extends st (set_sys_modules (dict_setdefault k l) st).
Proof.
  split; [| auto]. intros n l' Hn. simpl. unfold dict_setdefault.
  destruct (sys_modules st !! k) eqn:E; [done |].
  rewrite lookup_insert_ne; [done | congruence].
Qed.

Create HintDb quiet discriminated.

(** Closes the goals of a primitive step: the frame conditions by
    computation, the class of a raised exception by inspection. *)
Ltac quiet_step :=
  simpl; repeat split; auto using extends_refl;
  try (intros ? [=]; subst; reflexivity).

Lemma quiet_ret {A} (a : A) : quiet (ret a).
Proof. intros st. quiet_step. Qed.

Lemma quiet_gets {A} (f : state -> A) : quiet (gets f).
Proof. intros st. quiet_step. Qed.

Lemma quiet_bind {A B} (m : Py A) (k : A -> Py B) :
  quiet m -> (forall a, quiet (k a)) -> quiet (bind m k).
Proof.
  intros Hm Hk st. unfold bind. cbv zeta.
  destruct (Hm st) as (L & P & E & V & X & R).
  destruct (res (m st)) as [a | e];
    [| simpl; repeat (split; [assumption |]); intros ? [= <-]; by apply R].
  destruct (Hk a (final (m st))) as (L' & P' & E' & V' & X' & R'). simpl.
  rewrite L, L', P', E', V', P, E, V.
  repeat (split; [done || (eapply extends_trans; eauto) |]). exact R'.
Qed.

Lemma quiet_try {A} (body handler : Py A) :
  quiet body -> quiet handler -> quiet (try_except_Exception body handler).
Proof.
  intros Hb Hh st. unfold try_except_Exception. cbv zeta.
  destruct (Hb st) as (L & P & E & V & X & R).
  destruct (res (body st)) as [a | e] eqn:Rb.
  { repeat (split; [done |]). intros e He. congruence. }
  rewrite (R e eq_refl).
  destruct (Hh (final (body st))) as (L' & P' & E' & V' & X' & R'). simpl.
  rewrite L, L', P', E', V', P, E, V.
  repeat (split; [done || (eapply extends_trans; eauto) |]). exact R'.
Qed.

Lemma quiet_hasattr o name : quiet (hasattr o name).
Proof. apply quiet_gets. Qed.

Lemma quiet_getattr o name : quiet (getattr o name).
Proof.
  intros st. unfold getattr.
  destruct (heap st !! o) as [[attrs |] |]; [destruct (attrs !! name) |..]; quiet_step.
Qed.

Lemma quiet_setattr o name v : quiet (setattr o name v).
Proof.
  intros st. unfold setattr.
  destruct (heap st !! o) as [[attrs |] |]; quiet_step; apply extends_set_heap.
Qed.

Lemma quiet_ModuleType fullname : quiet (ModuleType fullname).
Proof. intros st. unfold ModuleType. quiet_step. apply extends_set_heap. Qed.

Lemma quiet_setdefault_module k l : quiet (modify (set_sys_modules (dict_setdefault k l))).
Proof. intros st. unfold modify. quiet_step. apply extends_setdefault. Qed.

Lemma quiet_for_each {A} (xs : list A) (body : A -> Py unit) :
  (forall x, quiet (body x)) -> quiet (for_each xs body).
Proof.
  intros Hbody. induction xs as [| x xs IH]; simpl.
  - apply quiet_ret.
  - apply quiet_bind; auto.
Qed.

#[local] Hint Resolve quiet_ret quiet_gets quiet_bind quiet_try quiet_hasattr
  quiet_getattr quiet_setattr quiet_ModuleType quiet_setdefault_module quiet_for_each : quiet.

Section ScriptProperties.

Variable H : host.

Lemma quiet_ensure_stub fullname : quiet (ensure_stub fullname).
Proof.
  intros st. unfold ensure_stub, bind, gets, ModuleType, modify, ret. simpl.
  destruct (sys_modules st !! fullname) as [l |] eqn:E; simpl.
  - quiet_step.
  - repeat split; auto; try discriminate.
    + intros n l Hn. simpl. rewrite lookup_insert_ne; [done | congruence].
    + intros l Hl. exact (is_module_insert st _ _ l Hl).
Qed.

#[local] Hint Resolve quiet_ensure_stub : quiet.

Lemma quiet_patch_pathlib_only : quiet (patch_pathlib_only H).
Proof.
  unfold patch_pathlib_only.
  apply quiet_bind; [auto with quiet |]. intros _.
  apply quiet_bind; [auto with quiet |]. intros has.
  destruct (negb (bool_decide (os_name H = "nt")) && has); auto 10 with quiet.
Qed.

Lemma quiet_stub_optional_packages : quiet stub_optional_packages.
Proof.
  unfold stub_optional_packages.
  repeat (first [ apply quiet_ensure_stub
                | apply quiet_setattr
                | apply quiet_ret
                | apply quiet_try
                | apply quiet_for_each; intros ?
                | apply quiet_bind; [| intros ?] ]).
Qed.

End ScriptProperties.
(** ** Equations for the monad *)

Lemma run_eta {A} (r : run A) : Run (log r) (final r) (res r) = r.
Proof. by destruct r. Qed.

Lemma bind_ret {A B} (a : A) (k : A -> Py B) st : bind (ret a) k st = k a st.
Proof. unfold bind, ret. simpl. apply run_eta. Qed.

Lemma bind_gets {A B} (f : state -> A) (k : A -> Py B) st : bind (gets f) k st = k (f st) st.
Proof. unfold bind, gets. simpl. apply run_eta. Qed.

Lemma bind_modify {B} (f : state -> state) (k : unit -> Py B) st :
  bind (modify f) k st = k tt (f st).
Proof. unfold bind, modify. simpl. apply run_eta. Qed.

Lemma bind_raise {A B} e (k : A -> Py B) st : bind (raise e) k st = Run [] st (Raise e).
Proof. reflexivity. Qed.

Lemma bind_quiet_Ok {A B} (m : Py A) (k : A -> Py B) st a :
  log (m st) = [] -> res (m st) = Ok a -> bind m k st = k a (final (m st)).
Proof. intros L R. unfold bind. cbv zeta. rewrite R, L. simpl. apply run_eta. Qed.

Lemma bind_quiet_Raise {A B} (m : Py A) (k : A -> Py B) st e :
  log (m st) = [] -> res (m st) = Raise e -> bind m k st = Run [] (final (m st)) (Raise e).
Proof. intros L R. unfold bind. cbv zeta. rewrite R, L. reflexivity. Qed.

Section MainStages.

Variable H : host.

Lemma py_import_log name st : log (py_import H name st) = [].
Proof.
  unfold py_import.
  destruct (sys_modules st !! name) as [l |]; [| reflexivity].
  by destruct (heap st !! l) as [[] |].
Qed.

(** The [try]/[except] around [import onnx] (lines 106-110). *)
Lemma try_import_onnx st :
  try_except_Exception (py_import H "onnx" ;;; ret tt)
                       (raise (SystemExit (ExitObj ERR_no_onnx))) st
  = Run [] (after_import H st)
        (match res (py_import H "onnx" st) with
         | Ok _ => Ok tt
         | Raise e => Raise (if is_Exception e then SystemExit (ExitObj ERR_no_onnx) else e)
         end).
Proof.
  unfold try_except_Exception, bind, after_import. cbv zeta.
  pose proof (py_import_log "onnx" st) as L.
  destruct (py_import H "onnx" st) as [l s [a | e]]; simpl in *; subst l; simpl.
  - reflexivity.
  - by destruct (is_Exception e).
Qed.

(** The Environment Patcher never raises. *)
Lemma patch_pathlib_only_returns st : res (patch_pathlib_only H st) = Ok tt.
Proof.
  unfold patch_pathlib_only. rewrite bind_modify.
  unfold hasattr. rewrite bind_gets.
  set (st1 := set_sys_modules _ st). clearbody st1.
  destruct (negb (bool_decide (os_name H = "nt")) && _); [| reflexivity].
  unfold try_except_Exception, bind, getattr, setattr. cbv zeta.
  destruct (heap st1 !! pathlib H) as [[attrs |] |]; simpl; try reflexivity.
  destruct (attrs !! "PosixPath"); simpl; [| reflexivity].
  destruct (heap st1 !! pathlib H) as [[attrs' |] |]; reflexivity.
Qed.

Lemma ensure_repo_on_path_eq st :
  ensure_repo_on_path H st =
    let repo := repo_dir H st in
    if negb (isdir H repo) then Run [] st (Raise (SystemExit (ExitObj (ERR_no_repo repo))))
    else Run [] (if bool_decide (repo ∈ sys_path st) then st
                 else set_sys_path (fun p => repo :: p) st) (Ok repo).
Proof.
  unfold ensure_repo_on_path, expanduser. rewrite bind_gets. fold (repo_dir H st).
  cbv zeta. destruct (isdir H (repo_dir H st)); simpl.
  - rewrite bind_ret, bind_gets.
    destruct (bool_decide (repo_dir H st ∈ sys_path st)).
    + by rewrite bind_ret.
    + by rewrite bind_modify.
  - by rewrite bind_raise.
Qed.

(** [main] goes through the stages named above. *)
Lemma main_eq args st : main H args st = main_stages H args st.
Proof.
  unfold main, main_stages, expanduser. rewrite bind_gets. fold (weights_path H args st).
  cbv zeta. destruct (isfile H (weights_path H args st)); simpl; [| by rewrite bind_raise].
  rewrite bind_ret.
  pose proof (try_import_onnx st) as T.
  destruct (res (py_import H "onnx" st)) as [l | e] eqn:Ri.
  2:{ erewrite bind_quiet_Raise; [| by rewrite T | by rewrite T]. by rewrite T. }
  erewrite bind_quiet_Ok; [| by rewrite T | by rewrite T]. rewrite T. simpl.
  destruct (quiet_patch_pathlib_only H (after_import H st)) as (Lp & _).
  erewrite bind_quiet_Ok; [| exact Lp | apply patch_pathlib_only_returns].
  destruct (quiet_stub_optional_packages (final (patch_pathlib_only H (after_import H st))))
    as (Ls & _).
  fold (stub_run H st) in *.
  destruct (res (stub_run H st)) as [[] | e] eqn:Rs.
  2:{ erewrite bind_quiet_Raise; [reflexivity | exact Ls | exact Rs]. }
  erewrite bind_quiet_Ok; [| exact Ls | exact Rs].
  unfold handoff. cbv zeta. fold (stub_run H st).
  generalize (final (stub_run H st)). intros st3.
  pose proof (ensure_repo_on_path_eq st3) as Er. cbv zeta in Er.
  destruct (isdir H (repo_dir H st3)) eqn:Hd; cbn [negb] in *.
  2:{ erewrite bind_quiet_Raise; [| by rewrite Er | by rewrite Er]. by rewrite Er. }
  erewrite bind_quiet_Ok; [| by rewrite Er | by rewrite Er]. rewrite Er. cbn [final].
  rewrite !bind_modify.
  unfold bind, print, runpy_run_path, modify. cbn [log final res].
  destruct ((run_export H _ _).2) as [[] | e]; reflexivity.
Qed.

End MainStages.
(** ** The command line and the early exits *)

Section MainProperties.

Variable H : host.

(** The stages before the hand-over leave [os.environ] as the import of
    [onnx] left it. *)
Lemma stub_run_frame st :
  log (stub_run H st) = []
  /\ environ (final (stub_run H st)) = environ (after_import H st)
  /\ sys_path (final (stub_run H st)) = sys_path (after_import H st)
  /\ (forall e, res (stub_run H st) = Raise e -> is_Exception e = true).
Proof.
  unfold stub_run.
  destruct (quiet_patch_pathlib_only H (after_import H st)) as (_ & P & E & _).
  destruct (quiet_stub_optional_packages (final (patch_pathlib_only H (after_import H st))))
    as (L' & P' & E' & _ & _ & R').
  rewrite E', P', E, P. auto.
Qed.

Lemma exn_status_Exception e : is_Exception e = true -> exn_status e = 1%Z.
Proof. by destruct e. Qed.

(** From the parsed command line on: if the weights path, after user
    expansion, names no existing file, [main] raises [SystemExit] with the
    diagnostic, the exit status is 1, and the state is the one it started
    in; nothing was printed and [runpy.run_path] was not called. *)
Lemma missing_weights_exits_untouched (args : Namespace) (st : state) :
  isfile H (weights_path H args st) = false ->
  res (main H args st) = Raise (SystemExit (ExitObj (ERR_no_weights (weights_path H args st))))
  /\ exit_status (res (main H args st)) = 1%Z
  /\ sys_modules (final (main H args st)) = sys_modules st
  /\ heap (final (main H args st)) = heap st
  /\ sys_path (final (main H args st)) = sys_path st
  /\ environ (final (main H args st)) = environ st
  /\ log (main H args st) = [].
Proof.
  intros Hf. rewrite main_eq. unfold main_stages. cbv zeta. rewrite Hf. simpl. tauto.
Qed.

(** C10. If importing [onnx] raises an [Exception] (an [ImportError], say),
    [main] raises [SystemExit] with the remediation hint, the exit status
    is 1, and the script has changed nothing of its own: the final state is
    the one the failed import left, so no stub is registered, [pathlib] is
    not patched, [sys.path] and [os.environ] are not written, and nothing
    was printed or run. *)
Theorem missing_onnx_exits_untouched (args : Namespace) (st : state) (e : exn) :
  isfile H (weights_path H args st) = true ->
  res (py_import H "onnx" st) = Raise e ->
  is_Exception e = true ->
  res (main H args st) = Raise (SystemExit (ExitObj ERR_no_onnx))
  /\ exit_status (res (main H args st)) = 1%Z
  /\ sys_modules (final (main H args st)) = sys_modules (after_import H st)
  /\ heap (final (main H args st)) = heap (after_import H st)
  /\ sys_path (final (main H args st)) = sys_path (after_import H st)
  /\ environ (final (main H args st)) = environ (after_import H st)
  /\ log (main H args st) = [].
Proof.
  intros Hf Hi He. rewrite main_eq. unfold main_stages. cbv zeta.
  rewrite Hf, Hi, He. simpl. tauto.
Qed.

(** C6. With the weights file present and [onnx] importable, if [~/yolov5]
    is not a directory then the process ends with a non-zero status and
    without having printed or run anything: [runpy.run_path] is never
    called. The exception is the [SystemExit] with the diagnostic naming
    the directory; only when the stubber itself failed on the way is it
    that failure instead. *)
Theorem missing_repo_exits_before_export (args : Namespace) (st : state) (l : loc) :
  isfile H (weights_path H args st) = true ->
  res (py_import H "onnx" st) = Ok l ->
  isdir H (repo_dir H (after_import H st)) = false ->
  exit_status (res (main H args st)) = 1%Z
  /\ log (main H args st) = []
  /\ invocations (log (main H args st)) = []
  /\ (res (main H args st)
        = Raise (SystemExit (ExitObj (ERR_no_repo (repo_dir H (after_import H st)))))
      \/ exists e, res (stub_run H st) = Raise e /\ res (main H args st) = Raise e)
  /\ (res (stub_run H st) = Ok tt ->
      res (main H args st)
        = Raise (SystemExit (ExitObj (ERR_no_repo (repo_dir H (after_import H st)))))).
Proof.
  intros Hf Hi Hd. rewrite main_eq. unfold main_stages. cbv zeta.
  rewrite Hf, Hi. simpl.
  destruct (stub_run_frame st) as (_ & E & _ & R).
  assert (Hrepo : repo_dir H (final (stub_run H st)) = repo_dir H (after_import H st)).
  { unfold repo_dir. by rewrite E. }
  rewrite Hrepo, Hd. simpl.
  destruct (res (stub_run H st)) as [[] | e] eqn:Rs; simpl.
  - repeat split; auto.
  - rewrite (exn_status_Exception e) by auto.
    repeat split; eauto. discriminate.
Qed.

(** ** The hand-over to the export script *)

(** Every call of [runpy.run_path] in a run of [main] is the one of line
    137, entered in the state [handoff]. *)
Lemma main_run_path (args : Namespace) (st : state) p sth :
  In (EvRunPath p sth) (log (main H args st)) ->
  sth = handoff H args st
  /\ p = PosixPath.join (repo_dir H (final (stub_run H st))) "export.py"
  /\ isfile H (weights_path H args st) = true
  /\ (exists l, res (py_import H "onnx" st) = Ok l)
  /\ res (stub_run H st) = Ok tt
  /\ isdir H (repo_dir H (final (stub_run H st))) = true
  /\ res (main H args st) = (run_export H p sth).2
  /\ final (main H args st) = (run_export H p sth).1
  /\ printed (log (main H args st))
     = str_join " " [INFO_calling;
                     str_join " " (export_argv (repo_dir H (final (stub_run H st)))
                                               (weights_path H args st) args)]
       :: match (run_export H p sth).2 with Ok _ => [OK_done] | Raise _ => [] end.
Proof.
  rewrite main_eq. unfold main_stages. cbv zeta.
  destruct (isfile H (weights_path H args st)); simpl; [| tauto].
  destruct (res (py_import H "onnx" st)) as [l | e]; simpl; [| tauto].
  destruct (res (stub_run H st)) as [[] | e]; simpl; [| tauto].
  destruct (isdir H (repo_dir H (final (stub_run H st)))); simpl; [| tauto].
  destruct ((run_export H _ _).2) as [[] | e] eqn:Re; simpl;
    intros [[=] | [[= <- <-] | Hin]];
    try (rewrite Re; repeat split; eauto; fail).
  - destruct Hin as [[=] | []].
  - destruct Hin.
Qed.

Lemma setdefault_lookup_ne {V} (k k' : string) (v : V) (d : gmap string V) :
  k <> k' -> dict_setdefault k v d !! k' = d !! k'.
Proof.
  intros Hne. unfold dict_setdefault.
  destruct (d !! k); [done |]. by rewrite lookup_insert_ne.
Qed.

Lemma setdefault_lookup {V} (k : string) (v : V) (d : gmap string V) :
  dict_setdefault k v d !! k = Some (default v (d !! k)).
Proof.
  unfold dict_setdefault.
  destruct (d !! k) eqn:E; simpl; [done |]. by rewrite lookup_insert_eq.
Qed.

Lemma ensure_repo_on_path_environ st :
  environ (final (ensure_repo_on_path H st)) = environ st.
Proof.
  rewrite ensure_repo_on_path_eq. cbv zeta.
  destruct (negb _); [done |]. simpl. by destruct (bool_decide _).
Qed.

Lemma handoff_environ_other (args : Namespace) (st : state) k :
  k <> "YOLOV5_AUTOINSTALL" -> k <> "ULTRALYTICS_NO_AUTOINSTALL" ->
  environ (handoff H args st) !! k = environ (after_import H st) !! k.
Proof.
  intros H1 H2. unfold handoff, set_sys_argv, set_environ. cbn [environ].
  rewrite !setdefault_lookup_ne by done.
  rewrite ensure_repo_on_path_environ.
  destruct (stub_run_frame st) as (_ & E & _). by rewrite E.
Qed.

(** The directory resolved by [ensure_repo_on_path] is also what
    [~/yolov5] expands to in the environment the export script sees. *)
Lemma repo_dir_handoff (args : Namespace) (st : state) :
  repo_dir H (handoff H args st) = repo_dir H (final (stub_run H st)).
Proof.
  unfold repo_dir. apply expanduser_only_HOME.
  rewrite handoff_environ_other by done.
  destruct (stub_run_frame st) as (_ & E & _). by rewrite E.
Qed.

(** C1. Whenever [main] hands over to the export script, the script is
    [repo/export.py] for the resolved framework directory [repo] (which
    exists), and [sys.argv] is exactly
    [repo/export.py --weights expanduser(w) --include onnx --imgsz str(s)
    --opset str(o)], followed by [--dynamic] iff that flag is set and by
    [--simplify] iff that flag is set; when [--imgsz] and [--opset] were
    not given, the numbers are 640 and 12. *)
Theorem export_argv_handed_over (args : Namespace) (st : state) p sth :
  In (EvRunPath p sth) (log (main H args st)) ->
  p = repo_dir H sth ++ "/export.py"
  /\ isdir H (repo_dir H sth) = true
  /\ sys_argv sth
     = ([repo_dir H sth +:+ "/export.py";
         "--weights"; weights_path H args st;
         "--include"; "onnx";
         "--imgsz"; py_str (imgsz args);
         "--opset"; py_str (opset args)]
        ++ (if dynamic args then ["--dynamic"] else [])
        ++ (if simplify args then ["--simplify"] else []))%list
  /\ (forall c, args = parse_args c -> cli_imgsz c = None -> cli_opset c = None ->
      sys_argv sth
      = ([repo_dir H sth +:+ "/export.py";
          "--weights"; weights_path H args st;
          "--include"; "onnx";
          "--imgsz"; "640";
          "--opset"; "12"]
         ++ (if cli_dynamic c then ["--dynamic"] else [])
         ++ (if cli_simplify c then ["--simplify"] else []))%list).
Proof.
  intros Hin. destruct (main_run_path args st p sth Hin) as (-> & -> & _ & _ & _ & Hd & _).
  rewrite repo_dir_handoff.
  assert (Hargv : sys_argv (handoff H args st)
                  = export_argv (repo_dir H (final (stub_run H st))) (weights_path H args st) args)
    by reflexivity.
  assert (Hj : PosixPath.join (repo_dir H (final (stub_run H st))) "export.py"
               = repo_dir H (final (stub_run H st)) +:+ "/export.py")
    by apply join_repo_export.
  rewrite Hargv. unfold export_argv. rewrite !Hj.
  repeat split; auto.
  intros c -> Hs Ho. unfold parse_args. simpl. rewrite Hs, Ho. reflexivity.
Qed.

(** When the checks pass and the stubber returns, the hand-over happens. *)
Lemma main_reaches_export (args : Namespace) (st : state) l :
  isfile H (weights_path H args st) = true ->
  res (py_import H "onnx" st) = Ok l ->
  res (stub_run H st) = Ok tt ->
  isdir H (repo_dir H (after_import H st)) = true ->
  In (EvRunPath (PosixPath.join (repo_dir H (after_import H st)) "export.py")
                (handoff H args st))
     (log (main H args st)).
Proof.
  intros Hf Hi Hs Hd. rewrite main_eq. unfold main_stages. cbv zeta.
  destruct (stub_run_frame st) as (_ & E & _).
  assert (Hrepo : repo_dir H (final (stub_run H st)) = repo_dir H (after_import H st)).
  { unfold repo_dir. by rewrite E. }
  rewrite Hf, Hi, Hs, Hrepo, Hd. simpl.
  destruct ((run_export H _ _).2) as [[] | e]; simpl; eauto.
Qed.

(** ** Failure of the export script *)

Lemma info_line_not_OK_done x : str_join " " [INFO_calling; x] <> OK_done.
Proof. discriminate. Qed.

(** C7 (as the code has it). If the export script raises, [main] ends with
    that very exception, the completion message is not printed, and the
    exit status is the one the exception gives: 1 for everything but
    [SystemExit], which carries its own. And the completion message is
    printed only in a run where the export script returned. *)
Theorem export_failure_propagates (args : Namespace) (st : state) :
  (forall p sth e,
      In (EvRunPath p sth) (log (main H args st)) ->
      (run_export H p sth).2 = Raise e ->
      res (main H args st) = Raise e
      /\ final (main H args st) = (run_export H p sth).1
      /\ ~ In OK_done (printed (log (main H args st)))
      /\ exit_status (res (main H args st)) = exn_status e
      /\ (is_SystemExit e = false -> exit_status (res (main H args st)) = 1%Z))
  /\ (In OK_done (printed (log (main H args st))) ->
      exists p sth,
        In (EvRunPath p sth) (log (main H args st))
        /\ (run_export H p sth).2 = Ok tt
        /\ res (main H args st) = Ok tt).
Proof.
  split.
  - intros p sth e Hin He.
    destruct (main_run_path args st p sth Hin) as (_ & _ & _ & _ & _ & _ & Hr & Hfin & Hp).
    rewrite Hr, Hfin, Hp, He. simpl. repeat split; auto.
    + intros [Hi | []]. by apply info_line_not_OK_done in Hi.
    + by destruct e.
  - rewrite main_eq. unfold main_stages. cbv zeta.
    destruct (isfile H (weights_path H args st)); simpl; [| tauto].
    destruct (res (py_import H "onnx" st)) as [l | e]; simpl; [| tauto].
    destruct (res (stub_run H st)) as [[] | e]; simpl; [| tauto].
    destruct (isdir H (repo_dir H (final (stub_run H st)))); simpl; [| tauto].
    destruct ((run_export H _ _).2) as [[] | e] eqn:Re; simpl.
    + intros _. do 2 eexists. split; [right; left; reflexivity |]. by rewrite Re.
    + intros [Hi | []]. by apply info_line_not_OK_done in Hi.
Qed.

(** ** The environment toggles *)


End MainProperties.
(** ** The properties of [main] on the concrete machine *)

(** On the machine [Demo.pi] and its variants the run reaches the export
    script, which is [/home/pi/yolov5/export.py]. *)
Lemma demo_reaches_export load export :
  load = Demo.load_installed ->
  In (EvRunPath "/home/pi/yolov5/export.py"
                (handoff (Demo.machine load export) Demo.args Demo.st0))
     (log (main (Demo.machine load export) Demo.args Demo.st0)).
Proof.
  intros ->.
  assert (Hp : PosixPath.join
                 (repo_dir (Demo.machine Demo.load_installed export)
                    (after_import (Demo.machine Demo.load_installed export) Demo.st0))
                 "export.py" = "/home/pi/yolov5/export.py")
    by (vm_compute; reflexivity).
  rewrite <- Hp.
  apply (main_reaches_export _ _ _ 4%positive); vm_compute; reflexivity.
Qed.

Lemma missing_onnx_exits_untouched_witness :
  isfile Demo.pi_no_onnx (weights_path Demo.pi_no_onnx Demo.args Demo.st0) = true
  /\ res (py_import Demo.pi_no_onnx "onnx" Demo.st0)
     = Raise (Exception "ModuleNotFoundError" "onnx")
  /\ res (main Demo.pi_no_onnx Demo.args Demo.st0) = Raise (SystemExit (ExitObj ERR_no_onnx))
  /\ exit_status (res (main Demo.pi_no_onnx Demo.args Demo.st0)) = 1%Z.
Proof.
  assert (Hf : isfile Demo.pi_no_onnx (weights_path Demo.pi_no_onnx Demo.args Demo.st0) = true)
    by (vm_compute; reflexivity).
  assert (Hi : res (py_import Demo.pi_no_onnx "onnx" Demo.st0)
               = Raise (Exception "ModuleNotFoundError" "onnx"))
    by (vm_compute; reflexivity).
  split; [exact Hf |]. split; [exact Hi |].
  destruct (missing_onnx_exits_untouched Demo.pi_no_onnx Demo.args Demo.st0 _ Hf Hi eq_refl)
    as (Hr & Hs & _).
  split; [exact Hr | exact Hs].
Defined.

Lemma missing_repo_exits_before_export_witness :
  isfile Demo.pi_no_repo (weights_path Demo.pi_no_repo Demo.args Demo.st0) = true
  /\ res (py_import Demo.pi_no_repo "onnx" Demo.st0) = Ok 4%positive
  /\ isdir Demo.pi_no_repo (repo_dir Demo.pi_no_repo (after_import Demo.pi_no_repo Demo.st0))
     = false
  /\ exit_status (res (main Demo.pi_no_repo Demo.args Demo.st0)) = 1%Z
  /\ invocations (log (main Demo.pi_no_repo Demo.args Demo.st0)) = [].
Proof.
  assert (Hf : isfile Demo.pi_no_repo (weights_path Demo.pi_no_repo Demo.args Demo.st0) = true)
    by (vm_compute; reflexivity).
  assert (Hi : res (py_import Demo.pi_no_repo "onnx" Demo.st0) = Ok 4%positive)
    by (vm_compute; reflexivity).
  assert (Hd : isdir Demo.pi_no_repo
                 (repo_dir Demo.pi_no_repo (after_import Demo.pi_no_repo Demo.st0)) = false)
    by (vm_compute; reflexivity).
  split; [exact Hf |]. split; [exact Hi |]. split; [exact Hd |].
  destruct (missing_repo_exits_before_export Demo.pi_no_repo Demo.args Demo.st0 _ Hf Hi Hd)
    as (Hs & _ & Hinv & _).
  split; [exact Hs | exact Hinv].
Defined.

Lemma export_argv_handed_over_witness :
  In (EvRunPath "/home/pi/yolov5/export.py" (handoff Demo.pi Demo.args Demo.st0))
     (log (main Demo.pi Demo.args Demo.st0))
  /\ sys_argv (handoff Demo.pi Demo.args Demo.st0)
     = ["/home/pi/yolov5/export.py"; "--weights"; "/home/pi/best.pt";
        "--include"; "onnx"; "--imgsz"; "640"; "--opset"; "12"].
Proof.
  pose proof (demo_reaches_export Demo.load_installed Demo.export_returns eq_refl) as Hin.
  split; [exact Hin |].
  destruct (export_argv_handed_over Demo.pi Demo.args Demo.st0 _ _ Hin) as (_ & _ & Hargv & _).
  unfold Demo.pi. rewrite Hargv. vm_compute. reflexivity.
Defined.

(** C7, the claim as stated fails: an export script that ends in
    [sys.exit(0)] raises [SystemExit], and the process exits with status 0. *)
Lemma export_SystemExit_0_exits_0 :
  invocations (log (main Demo.pi_exit0 Demo.args Demo.st0))
  = [("/home/pi/yolov5/export.py",
      ["/home/pi/yolov5/export.py"; "--weights"; "/home/pi/best.pt";
       "--include"; "onnx"; "--imgsz"; "640"; "--opset"; "12"])]
  /\ (forall p sth, (run_export Demo.pi_exit0 p sth).2 = Raise (SystemExit (ExitInt 0)))
  /\ res (main Demo.pi_exit0 Demo.args Demo.st0) = Raise (SystemExit (ExitInt 0))
  /\ exit_status (res (main Demo.pi_exit0 Demo.args Demo.st0)) = 0%Z.
Proof. repeat split; vm_compute; reflexivity. Qed.

Lemma export_failure_propagates_witness :
  In (EvRunPath "/home/pi/yolov5/export.py" (handoff Demo.pi_failing Demo.args Demo.st0))
     (log (main Demo.pi_failing Demo.args Demo.st0))
  /\ (run_export Demo.pi_failing "/home/pi/yolov5/export.py"
        (handoff Demo.pi_failing Demo.args Demo.st0)).2
     = Raise (Exception "RuntimeError" "unsupported layer")
  /\ res (main Demo.pi_failing Demo.args Demo.st0)
     = Raise (Exception "RuntimeError" "unsupported layer")
  /\ exit_status (res (main Demo.pi_failing Demo.args Demo.st0)) = 1%Z.
Proof.
  pose proof (demo_reaches_export Demo.load_installed
                (Demo.export_raises (Exception "RuntimeError" "unsupported layer")) eq_refl)
    as Hin.
  split; [exact Hin |]. split; [reflexivity |].
  destruct (proj1 (export_failure_propagates Demo.pi_failing Demo.args Demo.st0) _ _ _
              Hin eq_refl) as (Hr & _ & _ & _ & Hs).
  split; [exact Hr | exact (Hs eq_refl)].
Defined.


(** ** The Environment Patcher *)

Section PatchProperties.

Variable H : host.

(** C5 (as the code has it). The patcher always returns. It registers
    [pathlib._local] as an alias of [pathlib] only if that name was not
    registered; a registered name keeps its module. Off Windows, if
    [pathlib] defines [WindowsPath] and [PosixPath], afterwards
    [pathlib.WindowsPath] is the object [pathlib.PosixPath], and nothing
    else of [pathlib] has changed. *)
Theorem patch_pathlib_only_effect (st : state) :
  res (patch_pathlib_only H st) = Ok tt
  /\ (sys_modules st !! "pathlib._local" = None ->
      sys_modules (final (patch_pathlib_only H st)) !! "pathlib._local" = Some (pathlib H))
  /\ (forall m, sys_modules st !! "pathlib._local" = Some m ->
      sys_modules (final (patch_pathlib_only H st)) !! "pathlib._local" = Some m)
  /\ (os_name H <> "nt" ->
      forall attrs w p,
        heap st !! pathlib H = Some (PyModule attrs) ->
        attrs !! "WindowsPath" = Some w ->
        attrs !! "PosixPath" = Some p ->
        heap (final (patch_pathlib_only H st)) !! pathlib H
          = Some (PyModule (<["WindowsPath" := p]> attrs))
        /\ attr_of (final (patch_pathlib_only H st)) (pathlib H) "WindowsPath" = Some p
        /\ attr_of (final (patch_pathlib_only H st)) (pathlib H) "PosixPath" = Some p).
Proof.
  split; [apply patch_pathlib_only_returns |].
  assert (Hreg : sys_modules (final (patch_pathlib_only H st))
                 = dict_setdefault "pathlib._local" (pathlib H) (sys_modules st)).
  { unfold patch_pathlib_only. rewrite bind_modify. unfold hasattr. rewrite bind_gets.
    set (st1 := set_sys_modules _ st).
    assert (E1 : sys_modules st1 = dict_setdefault "pathlib._local" (pathlib H) (sys_modules st))
      by reflexivity.
    clearbody st1.
    destruct (negb _ && _); [| exact E1].
    rewrite <- E1. clear E1.
    unfold try_except_Exception, bind, getattr, setattr. cbv zeta.
    destruct (heap st1 !! pathlib H) as [[attrs |] |] eqn:Eh; simpl; try reflexivity.
    destruct (attrs !! "PosixPath"); simpl; [| reflexivity].
    rewrite Eh. reflexivity. }
  rewrite Hreg. split; [| split].
  - intros Hn. unfold dict_setdefault. rewrite Hn. apply lookup_insert_eq.
  - intros m Hm. unfold dict_setdefault. by rewrite Hm.
  - intros Hos attrs w p Hh Hw Hp.
    assert (Hheap : heap (final (patch_pathlib_only H st)) !! pathlib H
                    = Some (PyModule (<["WindowsPath" := p]> attrs))).
    { unfold patch_pathlib_only. rewrite bind_modify. unfold hasattr. rewrite bind_gets.
      set (st1 := set_sys_modules _ st).
      assert (E1 : heap st1 = heap st) by reflexivity. clearbody st1.
      rewrite E1, Hh, Hw.
      rewrite (bool_decide_eq_false_2 _ Hos).
      rewrite (bool_decide_eq_true_2 (is_Some (Some w))) by eauto.
      cbn [negb andb].
      unfold try_except_Exception, bind, getattr, setattr. cbv zeta.
      rewrite E1, Hh, Hp. cbn [res final]. rewrite E1, Hh. cbn [res final log app].
      unfold set_heap. cbn [heap]. apply lookup_insert_eq. }
    split; [exact Hheap |]. unfold attr_of. rewrite Hheap.
    split; [apply lookup_insert_eq |].
    rewrite lookup_insert_ne by done. exact Hp.
Qed.

End PatchProperties.

(** C5, the claim as stated fails: where [pathlib._local] already is a
    module (Python 3.13), the registry still maps the name to that module
    after the patch, not to [pathlib]. *)
Lemma pathlib_local_kept_if_registered :
  sys_modules Demo.st_313 !! "pathlib._local" = Some 4%positive
  /\ sys_modules (final (patch_pathlib_only Demo.pi Demo.st_313)) !! "pathlib._local"
     = Some 4%positive
  /\ sys_modules (final (patch_pathlib_only Demo.pi Demo.st_313)) !! "pathlib._local"
     <> Some (pathlib Demo.pi).
Proof. repeat split; vm_compute; (reflexivity || discriminate). Qed.

Lemma patch_pathlib_only_effect_witness :
  sys_modules Demo.st0 !! "pathlib._local" = None
  /\ os_name Demo.pi <> "nt"
  /\ sys_modules (final (patch_pathlib_only Demo.pi Demo.st0)) !! "pathlib._local"
     = Some (pathlib Demo.pi)
  /\ attr_of (final (patch_pathlib_only Demo.pi Demo.st0)) (pathlib Demo.pi) "WindowsPath"
     = Some (VRef 2%positive)
  /\ attr_of (final (patch_pathlib_only Demo.pi Demo.st0)) (pathlib Demo.pi) "PosixPath"
     = Some (VRef 2%positive).
Proof.
  assert (Hn : sys_modules Demo.st0 !! "pathlib._local" = None) by (vm_compute; reflexivity).
  assert (Hos : os_name Demo.pi <> "nt") by discriminate.
  split; [exact Hn |]. split; [exact Hos |].
  destruct (patch_pathlib_only_effect Demo.pi Demo.st0) as (_ & Hreg & _ & Hpath).
  split; [exact (Hreg Hn) |].
  destruct (Hpath Hos {[ "PosixPath" := VRef 2%positive; "WindowsPath" := VRef 3%positive ]}
              (VRef 3%positive) (VRef 2%positive))
    as (_ & Hw & Hp); [vm_compute; reflexivity .. |].
  split; [exact Hw | exact Hp].
Defined.

(** ** The module search path *)

Section RepoProperties.

Variable H : host.

(** When the directory exists, it is on [sys.path] afterwards, and it is
    the first entry if it was not on [sys.path] before. *)
Lemma ensure_repo_on_path_member (st : state) :
  isdir H (repo_dir H st) = true ->
  res (ensure_repo_on_path H st) = Ok (repo_dir H st)
  /\ repo_dir H st ∈ sys_path (final (ensure_repo_on_path H st))
  /\ (repo_dir H st ∉ sys_path st ->
      sys_path (final (ensure_repo_on_path H st)) = repo_dir H st :: sys_path st)
  /\ (repo_dir H st ∈ sys_path st ->
      sys_path (final (ensure_repo_on_path H st)) = sys_path st).
Proof.
  intros Hd. rewrite ensure_repo_on_path_eq. cbv zeta. rewrite Hd. simpl.
  split; [done |].
  destruct (bool_decide (repo_dir H st ∈ sys_path st)) eqn:E.
  - apply bool_decide_eq_true in E. split; [done |]. split; [| done].
    intros Hn. contradiction.
  - apply bool_decide_eq_false in E. simpl. split; [apply list_elem_of_here |].
    split; [done |]. intros Hin. contradiction.
Qed.

End RepoProperties.

(** C8, the code at a failing input: started with
    [PYTHONPATH=/home/pi/yolov5], the directory is already on [sys.path],
    in second place; [ensure_repo_on_path] leaves [sys.path] alone, and
    the first entry is still the script's own directory. *)
Theorem repo_on_path_not_moved_to_front :
  res (ensure_repo_on_path Demo.pi Demo.st_pythonpath) = Ok "/home/pi/yolov5"
  /\ sys_path (final (ensure_repo_on_path Demo.pi Demo.st_pythonpath))
     = ["/home/pi"; "/home/pi/yolov5"; "/usr/lib/python3.11"]
  /\ head (sys_path (final (ensure_repo_on_path Demo.pi Demo.st_pythonpath)))
     <> Some "/home/pi/yolov5".
Proof. repeat split; vm_compute; (reflexivity || discriminate). Qed.

(** ** The Dependency Stubber *)

(** Every entry of [sys.modules] survives the stubber, under the same
    name and with the same object. *)
Lemma stub_optional_packages_keeps_entries (st : state) name l :
  sys_modules st !! name = Some l ->
  sys_modules (final (stub_optional_packages st)) !! name = Some l.
Proof.
  destruct (quiet_stub_optional_packages st) as (_ & _ & _ & _ & [Hreg _] & _). apply Hreg.
Qed.

(** C2, the code at a failing input: with the real [pandas] loaded, the
    stubber keeps the registry entry but assigns [options], [DataFrame]
    and [Series] on the real module, so that [pandas.DataFrame] is the
    stub class [_DF] afterwards. *)
Theorem stubber_overwrites_loaded_pandas :
  sys_modules Demo.st_pandas !! "pandas" = Some 4%positive
  /\ attr_of Demo.st_pandas 4%positive "DataFrame" = Some (VRef 5%positive)
  /\ attr_of Demo.st_pandas 4%positive "Series" = None
  /\ res (stub_optional_packages Demo.st_pandas) = Ok tt
  /\ sys_modules (final (stub_optional_packages Demo.st_pandas)) !! "pandas" = Some 4%positive
  /\ attr_of (final (stub_optional_packages Demo.st_pandas)) 4%positive "DataFrame" = Some _DF
  /\ attr_of (final (stub_optional_packages Demo.st_pandas)) 4%positive "Series" = Some _DF
  /\ attr_of (final (stub_optional_packages Demo.st_pandas)) 4%positive "DataFrame"
     <> attr_of Demo.st_pandas 4%positive "DataFrame".
Proof.
  do 7 (split; [vm_compute; reflexivity |]).
  vm_compute. discriminate.
Qed.

(** *** Total correctness rules *)

Lemma returns_bind {A B} (P : state -> Prop) (m : Py A) Q (k : A -> Py B) R :
  returns P m Q -> (forall a, returns (Q a) (k a) R) -> returns P (bind m k) R.
Proof.
  intros Hm Hk st HP.
  destruct (Hm st HP) as (a & Ra & Qa).
  destruct (Hk a _ Qa) as (b & Rb & HR).
  exists b. unfold bind. cbv zeta. rewrite Ra. simpl. auto.
Qed.

Lemma returns_try {A} (P : state -> Prop) (body handler : Py A) Q :
  returns P body Q -> returns P (try_except_Exception body handler) Q.
Proof.
  intros Hb st HP. destruct (Hb st HP) as (a & Ra & Qa).
  exists a. unfold try_except_Exception. cbv zeta. rewrite Ra. auto.
Qed.

Section StubInvariant.

Variable names : list string.

Lemma returns_ensure_stub done mods n :
  In n names ->
  returns (stubbed names done mods) (ensure_stub n)
          (fun l => stubbed names (n :: done) (l :: mods)).
Proof.
  intros Hn st (G & D & M).
  destruct (quiet_ensure_stub n st) as (_ & _ & _ & _ & X & _).
  revert X. unfold ensure_stub. rewrite bind_gets.
  destruct (sys_modules st !! n) as [l |] eqn:E.
  - intros _. exists l. split; [reflexivity |]. simpl.
    assert (Hl : is_module st l) by eauto.
    split; [exact G |]. split.
    + intros n' [<- | Hin]; [exists l; auto | auto].
    + intros l' [<- | Hin]; auto.
  - unfold bind, ModuleType, modify, ret. simpl.
    set (l := fresh (dom (heap st))). set (st' := set_sys_modules _ _).
    intros X. exists l. split; [reflexivity |].
    assert (Hl : is_module st' l).
    { eexists. simpl. apply lookup_insert_eq. }
    assert (Hreg : sys_modules st' !! n = Some l) by (simpl; apply lookup_insert_eq).
    split; [| split].
    + intros n' l' Hn' Hl'. destruct (decide (n' = n)) as [-> | Hne].
      * rewrite Hreg in Hl'. by injection Hl' as <-.
      * simpl in Hl'. rewrite lookup_insert_ne in Hl' by done.
        apply X. eauto.
    + intros n' [<- | Hin]; [exists l; auto |].
      eapply extends_registered; eauto.
    + intros l' [<- | Hin]; [done |]. apply X. auto.
Qed.

Lemma returns_setattr done mods l k v :
  In l mods ->
  returns (stubbed names done mods) (setattr l k v) (fun _ => stubbed names done mods).
Proof.
  intros Hl st (G & D & M).
  destruct (M l Hl) as [attrs Ha].
  exists tt. unfold setattr. rewrite Ha. simpl. split; [reflexivity |].
  pose proof (extends_set_heap st l (<[k := v]> attrs)) as X.
  split; [| split].
  - intros n l' Hn Hl'. apply X. eauto.
  - intros n Hn. eapply extends_registered; eauto.
  - intros l' Hl'. apply X. auto.
Qed.

Lemma returns_ensure_stub_ignored done mods n :
  In n names ->
  returns (stubbed names done mods) (ensure_stub n ;;; ret tt)
          (fun _ => stubbed names (n :: done) mods).
Proof.
  intros Hn. eapply returns_bind; [by apply returns_ensure_stub |].
  intros l st (G & D & M). exists tt. split; [reflexivity |].
  split; [exact G |]. split; [exact D |]. intros l' Hl'. apply M. by right.
Qed.

Lemma returns_for_each_ensure_stub xs : forall done mods,
  (forall x, In x xs -> In x names) ->
  returns (stubbed names done mods) (for_each xs (fun name => ensure_stub name ;;; ret tt))
          (fun _ => stubbed names (rev xs ++ done)%list mods).
Proof.
  induction xs as [| x xs IH]; intros done mods Hxs.
  - intros st Hst. exists tt. split; [reflexivity | exact Hst].
  - simpl. eapply returns_bind.
    + apply returns_ensure_stub_ignored. apply Hxs. by left.
    + intros []. rewrite <- app_assoc. simpl. apply IH. intros y Hy. apply Hxs. by right.
Qed.

End StubInvariant.

(** From a state where no name of the list is registered, the stubber
    returns, and every name of the list is registered as a module. *)
Lemma stub_optional_packages_registers (st : state) :
  (forall name, In name stub_list -> sys_modules st !! name = None) ->
  res (stub_optional_packages st) = Ok tt
  /\ forall name, In name stub_list -> registered (final (stub_optional_packages st)) name.
Proof.
  intros Hnone.
  assert (Hret : returns (stubbed stub_list [] []) stub_optional_packages
                   (fun _ st' => forall name, In name stub_list -> registered st' name)).
  { unfold stub_optional_packages.
    repeat first
      [ eapply returns_bind;
          [ first [ apply returns_ensure_stub; simpl; tauto
                  | apply returns_try
                  | apply returns_setattr; simpl; tauto
                  | apply returns_for_each_ensure_stub; simpl; tauto ]
          | intros ? ]
      | apply returns_setattr; simpl; tauto ].
    intros st' (_ & D & _). exists tt. split; [reflexivity |].
    intros name Hname. apply D. simpl in *. tauto. }
  destruct (Hret st) as ([] & Hres & Hreg).
  - split; [| split]; [| intros ? []..].
    intros n l Hn Hl. rewrite Hnone in Hl by done. discriminate.
  - auto.
Qed.

Section StubImport.

Variable H : host.

Lemma py_import_registered (st : state) name :
  registered st name ->
  exists l, sys_modules st !! name = Some l /\ is_module st l
            /\ py_import H name st = Run [] st (Ok l).
Proof.
  intros (l & Hl & [attrs Ha]). exists l. split; [done |]. split; [by exists attrs |].
  unfold py_import. by rewrite Hl, Ha.
Qed.

(** C4. From a state where none of the eighteen names is registered, the
    stubber returns normally, and afterwards every one of the names is in
    [sys.modules], bound to a module, so that importing it returns that
    module at once: no exception, and no finder is consulted. *)
Theorem stubber_makes_all_importable (st : state) :
  (forall name, In name stub_list -> sys_modules st !! name = None) ->
  res (stub_optional_packages st) = Ok tt
  /\ forall name, In name stub_list ->
       exists l,
         sys_modules (final (stub_optional_packages st)) !! name = Some l
         /\ is_module (final (stub_optional_packages st)) l
         /\ py_import H name (final (stub_optional_packages st))
            = Run [] (final (stub_optional_packages st)) (Ok l).
Proof.
  intros Hnone. destruct (stub_optional_packages_registers st Hnone) as (Hres & Hreg).
  split; [exact Hres |]. intros name Hname. apply py_import_registered. auto.
Qed.

End StubImport.

Lemma stubber_makes_all_importable_witness :
  (forall name, In name stub_list -> sys_modules Demo.st0 !! name = None)
  /\ res (stub_optional_packages Demo.st0) = Ok tt
  /\ exists l,
       sys_modules (final (stub_optional_packages Demo.st0)) !! "torchvision.transforms" = Some l
       /\ py_import Demo.pi_no_onnx "torchvision.transforms" (final (stub_optional_packages Demo.st0))
          = Run [] (final (stub_optional_packages Demo.st0)) (Ok l).
Proof.
  assert (Hnone : forall name, In name stub_list -> sys_modules Demo.st0 !! name = None).
  { intros name Hname. simpl in Hname.
    repeat (destruct Hname as [<- | Hname]; [vm_compute; reflexivity |]). destruct Hname. }
  split; [exact Hnone |].
  destruct (stubber_makes_all_importable Demo.pi_no_onnx Demo.st0 Hnone) as (Hres & Hall).
  split; [exact Hres |].
  destruct (Hall "torchvision.transforms") as (l & Hl & _ & Hi).
  { simpl. tauto. }
  exists l. split; [exact Hl | exact Hi].
Defined.

(** * The single functions *)

(** ** Rules for triples *)

Lemma hoare_ret {A} (a : A) Q E : hoare (Q a) (ret a) Q E.
Proof. intros st HQ. exact HQ. Qed.

Lemma hoare_bind {A B} P (m : Py A) Q (k : A -> Py B) R E :
  hoare P m Q E -> (forall a, hoare (Q a) (k a) R E) -> hoare P (bind m k) R E.
Proof.
  intros Hm Hk st HP. specialize (Hm st HP). unfold bind. cbv zeta.
  destruct (res (m st)) as [a | e]; simpl; [| exact Hm].
  exact (Hk a _ Hm).
Qed.

Lemma hoare_conseq {A} (P P' : state -> Prop) (m : Py A) (Q Q' : A -> state -> Prop)
    (E E' : exn -> state -> Prop) :
  (forall st, P' st -> P st) ->
  (forall a st, Q a st -> Q' a st) ->
  (forall e st, E e st -> E' e st) ->
  hoare P m Q E -> hoare P' m Q' E'.
Proof.
  intros HP HQ HE Hm st HP'. specialize (Hm st (HP st HP')).
  destruct (res (m st)); auto.
Qed.

Lemma hoare_pre {A} (P P' : state -> Prop) (m : Py A) Q E :
  (forall st, P' st -> P st) -> hoare P m Q E -> hoare P' m Q E.
Proof. intros HP. apply hoare_conseq; auto. Qed.

Lemma hoare_post {A} (P : state -> Prop) (m : Py A) (Q Q' : A -> state -> Prop)
    (E E' : exn -> state -> Prop) :
  (forall a st, Q a st -> Q' a st) ->
  (forall e st, E e st -> E' e st) ->
  hoare P m Q E -> hoare P m Q' E'.
Proof. intros HQ HE. apply hoare_conseq; auto. Qed.

Lemma hoare_weaken_exn {A} (P : state -> Prop) (m : Py A) Q (E E' : exn -> state -> Prop) :
  (forall e st, E e st -> E' e st) -> hoare P m Q E -> hoare P m Q E'.
Proof. intros HE. apply hoare_conseq; auto. Qed.

(** [try]/[except Exception] around a body that raises nothing else. *)
Lemma hoare_try {A} P (body handler : Py A) Q (E' : state -> Prop) E :
  quiet body ->
  hoare P body Q (fun _ => E') -> hoare E' handler Q E ->
  hoare P (try_except_Exception body handler) Q E.
Proof.
  intros Hq Hb Hh st HP. specialize (Hb st HP).
  destruct (Hq st) as (_ & _ & _ & _ & _ & R).
  unfold try_except_Exception. cbv zeta.
  destruct (res (body st)) as [a | e] eqn:Rb; [rewrite Rb; exact Hb |].
  rewrite (R e eq_refl). simpl. exact (Hh _ Hb).
Qed.

Lemma hoare_for_each {A} (I : list A -> state -> Prop) (body : A -> Py unit) E xs :
  (forall x done, In x xs -> hoare (I done) (body x) (fun _ => I (x :: done)) E) ->
  forall done, hoare (I done) (for_each xs body) (fun _ => I (rev xs ++ done)%list) E.
Proof.
  induction xs as [| x xs IH]; intros Hbody done.
  - apply (hoare_ret tt (fun _ => I done)).
  - simpl. eapply hoare_bind; [apply Hbody; by left |].
    intros []. rewrite <- app_assoc. apply IH. intros y done' Hy. apply Hbody. by right.
Qed.

(** ** [ensure_stub] *)

(** The two ways [ensure_stub] goes: the name is registered and is
    returned as it is, or a module is created and registered. *)
Lemma ensure_stub_cases (name : string) (st : state) :
  (exists l, sys_modules st !! name = Some l /\ ensure_stub name st = Run [] st (Ok l))
  \/ (sys_modules st !! name = None
      /\ ensure_stub name st = Run [] (with_new_stub name st) (Ok (fresh (dom (heap st))))).
Proof.
  unfold ensure_stub. rewrite bind_gets.
  destruct (sys_modules st !! name) as [l |] eqn:E; [left; eauto |].
  right. split; [done |]. reflexivity.
Qed.

Lemma fresh_not_in_heap (st : state) : heap st !! fresh (dom (heap st)) = None.
Proof. apply not_elem_of_dom. apply is_fresh. Qed.

Lemma with_new_stub_heap_old (name : string) (st : state) l o :
  heap st !! l = Some o -> heap (with_new_stub name st) !! l = Some o.
Proof.
  intros Hl. unfold with_new_stub. simpl. rewrite lookup_insert_ne; [done |].
  intros <-. rewrite fresh_not_in_heap in Hl. discriminate.
Qed.

Lemma with_new_stub_registry_old (name : string) (st : state) n l :
  sys_modules st !! name = None ->
  sys_modules st !! n = Some l -> sys_modules (with_new_stub name st) !! n = Some l.
Proof.
  intros Hn Hl. unfold with_new_stub. simpl. rewrite lookup_insert_ne; [done | congruence].
Qed.

Lemma with_new_stub_registry_ne (name : string) (st : state) n :
  n <> name -> sys_modules (with_new_stub name st) !! n = sys_modules st !! n.
Proof. intros Hne. unfold with_new_stub. simpl. by rewrite lookup_insert_ne. Qed.

Lemma with_new_stub_registry_eq (name : string) (st : state) :
  sys_modules (with_new_stub name st) !! name = Some (fresh (dom (heap st))).
Proof. unfold with_new_stub. simpl. apply lookup_insert_eq. Qed.

Lemma with_new_stub_attr_old (name : string) (st : state) l k v :
  attr_of st l k = Some v -> attr_of (with_new_stub name st) l k = Some v.
Proof.
  unfold attr_of. intros Ha.
  destruct (heap st !! l) as [o |] eqn:Hl; [| discriminate].
  by rewrite (with_new_stub_heap_old name st l o Hl).
Qed.

Lemma with_new_stub_extends (name : string) (st : state) :
  sys_modules st !! name = None -> extends st (with_new_stub name st).
Proof.
  intros Hn. split.
  - intros n l. by apply with_new_stub_registry_old.
  - intros l [attrs Ha]. exists attrs. by apply with_new_stub_heap_old.
Qed.

(** X1. [ensure_stub] is get-or-create: it always returns, the object it
    returns is what the name is registered as afterwards, and a second call
    returns the same object and changes nothing. *)
Theorem ensure_stub_get_or_create (name : string) (st : state) :
  exists l,
    res (ensure_stub name st) = Ok l
    /\ sys_modules (final (ensure_stub name st)) !! name = Some l
    /\ ensure_stub name (final (ensure_stub name st))
       = Run [] (final (ensure_stub name st)) (Ok l).
Proof.
  destruct (ensure_stub_cases name st) as [(l & Hl & ->) | (Hn & ->)]; simpl.
  - exists l. split; [done |]. split; [done |].
    destruct (ensure_stub_cases name st) as [(l' & Hl' & ->) | (Hn & _)]; congruence.
  - eexists. split; [reflexivity |].
    pose proof (with_new_stub_registry_eq name st) as Hreg. split; [exact Hreg |].
    destruct (ensure_stub_cases name (with_new_stub name st)) as [(l' & Hl' & ->) | (Hn' & _)];
      congruence.
Qed.

(** X2. When [ensure_stub] creates a module, the module is a new object
    whose [__name__] is the name asked for and which has no attribute
    beyond those of an empty module; every object that existed and every
    other registry entry is as before, and so are [sys.path] and
    [os.environ]. *)
Theorem ensure_stub_creates_fresh_module (name : string) (st : state) :
  sys_modules st !! name = None ->
  exists l,
    res (ensure_stub name st) = Ok l
    /\ heap st !! l = None
    /\ heap (final (ensure_stub name st)) !! l = Some (PyModule (new_module_attrs name))
    /\ attr_of (final (ensure_stub name st)) l "__name__" = Some (VStr name)
    /\ (forall l' o, heap st !! l' = Some o -> heap (final (ensure_stub name st)) !! l' = Some o)
    /\ (forall n, n <> name ->
          sys_modules (final (ensure_stub name st)) !! n = sys_modules st !! n)
    /\ sys_path (final (ensure_stub name st)) = sys_path st
    /\ environ (final (ensure_stub name st)) = environ st.
Proof.
  intros Hn.
  destruct (ensure_stub_cases name st) as [(l & Hl & _) | (_ & ->)]; [congruence |].
  exists (fresh (dom (heap st))). simpl.
  assert (Hnew : heap (with_new_stub name st) !! fresh (dom (heap st))
                 = Some (PyModule (new_module_attrs name)))
    by (unfold with_new_stub; simpl; apply lookup_insert_eq).
  split; [done |]. split; [apply fresh_not_in_heap |]. split; [exact Hnew |].
  unfold attr_of. rewrite Hnew.
  split; [reflexivity |].
  split; [intros l' o; apply with_new_stub_heap_old |].
  split; [intros n; apply with_new_stub_registry_ne |]. done.
Qed.


Lemma ensure_stub_creates_fresh_module_witness :
  sys_modules Demo.st0 !! "seaborn" = None
  /\ res (ensure_stub "seaborn" Demo.st0) = Ok 4%positive
  /\ attr_of (final (ensure_stub "seaborn" Demo.st0)) 4%positive "__name__"
     = Some (VStr "seaborn").
Proof.
  assert (Hn : sys_modules Demo.st0 !! "seaborn" = None) by (vm_compute; reflexivity).
  split; [exact Hn |].
  destruct (ensure_stub_creates_fresh_module "seaborn" Demo.st0 Hn)
    as (l & Hres & _ & _ & Hname & _).
  assert (Hl : l = 4%positive).
  { assert (Hc : res (ensure_stub "seaborn" Demo.st0) = Ok 4%positive)
      by (vm_compute; reflexivity).
    congruence. }
  subst l. split; [exact Hres | exact Hname].
Defined.

(** ** When the stubber returns *)

Lemma keyed_extends names st st' : extends st st' -> keyed names st -> keyed names st'.
Proof.
  intros [X _] K n Hn. destruct (K n Hn) as [l Hl]. exists l. auto.
Qed.

Lemma usable_set_heap names st l attrs :
  usable names st -> usable names (set_heap (insert l (PyModule attrs)) st).
Proof.
  intros [U K]. split; [| exact K].
  destruct U as [U | U]; [by left | right].
  eapply extends_registered; [apply extends_set_heap | exact U].
Qed.

Lemma usable_ensure_stub names n E :
  n <> "matplotlib.pyplot" ->
  hoare (usable names) (ensure_stub n) (fun _ => usable (n :: names)) E.
Proof.
  intros Hne st [U K].
  destruct (ensure_stub_cases n st) as [(l & Hl & ->) | (Hn & ->)]; simpl.
  - split; [exact U |]. intros n' [<- | Hin]; [eauto | auto].
  - pose proof (with_new_stub_extends n st Hn) as X. split.
    + destruct U as [U | U].
      * left. by rewrite with_new_stub_registry_ne.
      * right. by apply (extends_registered st).
    + intros n' [<- | Hin].
      * rewrite with_new_stub_registry_eq. eauto.
      * by apply (keyed_extends names st).
Qed.

Lemma usable_ensure_stub_pyplot names E :
  hoare (usable names) (ensure_stub "matplotlib.pyplot")
        (fun l st => usable ("matplotlib.pyplot" :: names) st /\ is_module st l) E.
Proof.
  intros st [U K].
  destruct (ensure_stub_cases "matplotlib.pyplot" st) as [(l & Hl & ->) | (Hn & ->)]; simpl.
  - destruct U as [U | (l' & Hl' & Hm)]; [congruence |].
    assert (l' = l) as -> by congruence.
    split; [| exact Hm]. split; [right; exists l; auto |].
    intros n' [<- | Hin]; [eauto | auto].
  - pose proof (with_new_stub_extends "matplotlib.pyplot" st Hn) as X.
    assert (Hm : is_module (with_new_stub "matplotlib.pyplot" st) (fresh (dom (heap st)))).
    { eexists. unfold with_new_stub. simpl. apply lookup_insert_eq. }
    split; [| exact Hm]. split.
    + right. eexists. split; [apply with_new_stub_registry_eq | exact Hm].
    + intros n' [<- | Hin].
      * rewrite with_new_stub_registry_eq. eauto.
      * by apply (keyed_extends names st).
Qed.

Lemma usable_setattr_any names l k v :
  hoare (usable names) (setattr l k v) (fun _ => usable names) (fun _ => usable names).
Proof.
  intros st HU. unfold setattr.
  destruct (heap st !! l) as [[attrs |] |]; simpl; auto using usable_set_heap.
Qed.

Lemma usable_setattr_module names l k v E :
  hoare (fun st => usable names st /\ is_module st l) (setattr l k v)
        (fun _ st => usable names st /\ is_module st l) E.
Proof.
  intros st [HU [attrs Ha]]. unfold setattr. rewrite Ha. simpl.
  split; [by apply usable_set_heap |]. apply is_module_insert. by exists attrs.
Qed.

Lemma usable_ensure_stub_ignored names n E :
  n <> "matplotlib.pyplot" ->
  hoare (usable names) (ensure_stub n ;;; ret tt) (fun _ => usable (n :: names)) E.
Proof.
  intros Hne. eapply hoare_bind; [by apply usable_ensure_stub |].
  intros l. apply (hoare_ret tt (fun _ => usable (n :: names))).
Qed.

(** The stubber never raises when [matplotlib.pyplot] is usable, and then
    the whole list is registered. *)
Lemma stub_optional_packages_usable :
  hoare (usable []) stub_optional_packages
        (fun _ st => forall n, In n stub_list -> is_Some (sys_modules st !! n))
        (fun _ _ => False).
Proof.
  unfold stub_optional_packages.
  eapply hoare_bind; [by apply usable_ensure_stub | intros pd].
  eapply hoare_bind.
  { eapply (hoare_try _ _ _ _ (usable ["pandas"])); [auto 10 with quiet | |].
    - repeat (eapply hoare_bind; [apply usable_setattr_any | intros ?]).
      apply usable_setattr_any.
    - apply (hoare_ret tt (fun _ => usable ["pandas"])). }
  intros [].
  do 4 (eapply hoare_bind; [by apply usable_ensure_stub | intros ?]).
  eapply hoare_bind; [apply usable_ensure_stub_pyplot | intros plt].
  do 8 (eapply hoare_bind; [apply usable_setattr_module | intros ?]).
  eapply hoare_bind.
  { eapply hoare_pre; [| apply (hoare_for_each usable)].
    - intros st [HU _]. exact HU.
    - intros x names Hx. apply usable_ensure_stub_ignored. intros ->.
      simpl in Hx. repeat (destruct Hx as [Hx | Hx]; [discriminate |]). done. }
  intros [].
  do 3 (eapply hoare_bind; [by apply usable_ensure_stub | intros ?]).
  intros st [_ K]. simpl. intros n Hn. apply K. simpl in *. tauto.
Qed.

(** X3. Whatever else is registered, if [matplotlib.pyplot] is not
    registered or is registered as a module, the stubber returns normally,
    and afterwards every name of its list is a key of [sys.modules]: no
    import of such a name reaches a finder. *)
Theorem stubber_returns_if_pyplot_usable (st : state) :
  sys_modules st !! "matplotlib.pyplot" = None \/ registered st "matplotlib.pyplot" ->
  res (stub_optional_packages st) = Ok tt
  /\ forall n, In n stub_list -> is_Some (sys_modules (final (stub_optional_packages st)) !! n).
Proof.
  intros HU.
  assert (Hst : usable [] st) by (split; [exact HU | intros ? []]).
  pose proof (stub_optional_packages_usable st Hst) as Hh.
  destruct (res (stub_optional_packages st)) as [[] | e]; [auto | destruct Hh].
Qed.

Lemma stubber_returns_if_pyplot_usable_witness :
  registered Demo.st_pandas "pandas"
  /\ sys_modules Demo.st_pandas !! "matplotlib.pyplot" = None
  /\ res (stub_optional_packages Demo.st_pandas) = Ok tt
  /\ is_Some (sys_modules (final (stub_optional_packages Demo.st_pandas)) !! "thop").
Proof.
  assert (Hn : sys_modules Demo.st_pandas !! "matplotlib.pyplot" = None)
    by (vm_compute; reflexivity).
  split; [exists 4%positive; split; [vm_compute; reflexivity | eexists; vm_compute; reflexivity] |].
  split; [exact Hn |].
  destruct (stubber_returns_if_pyplot_usable Demo.st_pandas (or_introl Hn)) as (Hres & Hkeys).
  split; [exact Hres |]. apply Hkeys. simpl. tauto.
Defined.

(** ** When the stubber fails *)

Lemma hoare_False {A} (m : Py A) Q E : hoare (fun _ => False) m Q E.
Proof. intros st []. Qed.

Section Blocked.

Variable st0 : state.
Variable l : loc.

Lemma blocked_ensure_stub n E :
  ~ In n names_after_pyplot ->
  hoare (pyplot_blocked st0 l) (ensure_stub n) (fun _ => pyplot_blocked st0 l) E.
Proof.
  intros Hn st (Hreg & Hnone & Hlater).
  destruct (ensure_stub_cases n st) as [(l' & Hl' & ->) | (Hnew & ->)]; simpl; [done |].
  split; [by apply with_new_stub_registry_old |].
  split; [by apply with_new_stub_heap_old |].
  intros n' Hn'. rewrite with_new_stub_registry_ne; [auto | congruence].
Qed.

Lemma blocked_setattr_any l' k v :
  hoare (pyplot_blocked st0 l) (setattr l' k v)
        (fun _ => pyplot_blocked st0 l) (fun _ => pyplot_blocked st0 l).
Proof.
  intros st (Hreg & Hnone & Hlater). unfold setattr.
  destruct (heap st !! l') as [[attrs |] |] eqn:Hl'; simpl; [| done..].
  split; [done |]. split; [| done]. simpl.
  rewrite lookup_insert_ne; [done | congruence].
Qed.

Lemma blocked_ensure_stub_pyplot E :
  hoare (pyplot_blocked st0 l) (ensure_stub "matplotlib.pyplot")
        (fun plt st => pyplot_blocked st0 l st /\ plt = l) E.
Proof.
  intros st (Hreg & Hnone & Hlater).
  destruct (ensure_stub_cases "matplotlib.pyplot" st) as [(l' & Hl' & ->) | (Hnew & _)];
    simpl; [| congruence].
  split; [done | congruence].
Qed.

Lemma blocked_setattr_pyplot plt k v Q :
  hoare (fun st => pyplot_blocked st0 l st /\ plt = l) (setattr plt k v) Q
        (fun e st => e = AttributeError k /\ pyplot_blocked st0 l st).
Proof.
  intros st [(Hreg & Hnone & Hlater) ->]. unfold setattr. rewrite Hnone. simpl. done.
Qed.

Lemma stub_optional_packages_blocked :
  hoare (pyplot_blocked st0 l) stub_optional_packages (fun _ _ => False)
        (fun e st => e = AttributeError "figure" /\ pyplot_blocked st0 l st).
Proof.
  assert (Hearly : forall n, In n ["pandas"; "matplotlib"; "matplotlib.colors";
                                    "matplotlib.ticker"; "matplotlib.transforms"] ->
                             ~ In n names_after_pyplot).
  { intros n Hn Hin. simpl in Hn.
    repeat (destruct Hn as [<- | Hn];
            [simpl in Hin; repeat (destruct Hin as [Hin | Hin]; [discriminate |]); done |]).
    done. }
  unfold stub_optional_packages.
  eapply hoare_bind; [apply blocked_ensure_stub, Hearly; simpl; tauto | intros pd].
  eapply hoare_bind.
  { eapply (hoare_try _ _ _ _ (pyplot_blocked st0 l)); [auto 10 with quiet | |].
    - repeat (eapply hoare_bind; [apply blocked_setattr_any | intros ?]).
      apply blocked_setattr_any.
    - apply (hoare_ret tt (fun _ => pyplot_blocked st0 l)). }
  intros [].
  do 4 (eapply hoare_bind; [apply blocked_ensure_stub, Hearly; simpl; tauto | intros ?]).
  eapply hoare_bind; [apply blocked_ensure_stub_pyplot | intros plt].
  eapply hoare_bind; [apply blocked_setattr_pyplot | intros ?].
  apply hoare_False.
Qed.

End Blocked.

(** X4. If [matplotlib.pyplot] is registered as [None] (a blocked
    import), the stubber fails: the assignment of [plt.figure] raises an
    [AttributeError] that nothing catches. The entry stays as it was, and
    the names that come after [matplotlib.pyplot] in the stubber are never
    reached: their registrations are the initial ones. *)
Theorem stubber_fails_if_pyplot_blocked (st : state) (l : loc) :
  sys_modules st !! "matplotlib.pyplot" = Some l ->
  heap st !! l = Some PyNone ->
  res (stub_optional_packages st) = Raise (AttributeError "figure")
  /\ sys_modules (final (stub_optional_packages st)) !! "matplotlib.pyplot" = Some l
  /\ heap (final (stub_optional_packages st)) !! l = Some PyNone
  /\ forall n, In n names_after_pyplot ->
       sys_modules (final (stub_optional_packages st)) !! n = sys_modules st !! n.
Proof.
  intros Hreg Hnone.
  assert (Hst : pyplot_blocked st l st) by (split; [| split]; auto).
  pose proof (stub_optional_packages_blocked st l st Hst) as Hh.
  destruct (res (stub_optional_packages st)) as [[] | e]; [destruct Hh |].
  destruct Hh as (-> & Hreg' & Hnone' & Hlater). auto.
Qed.

Lemma stubber_fails_if_pyplot_blocked_witness :
  sys_modules Cases.st_pyplot_blocked !! "matplotlib.pyplot" = Some 4%positive
  /\ heap Cases.st_pyplot_blocked !! 4%positive = Some PyNone
  /\ res (stub_optional_packages Cases.st_pyplot_blocked) = Raise (AttributeError "figure")
  /\ sys_modules (final (stub_optional_packages Cases.st_pyplot_blocked)) !! "seaborn" = None.
Proof.
  assert (Hreg : sys_modules Cases.st_pyplot_blocked !! "matplotlib.pyplot" = Some 4%positive)
    by (vm_compute; reflexivity).
  assert (Hnone : heap Cases.st_pyplot_blocked !! 4%positive = Some PyNone)
    by (vm_compute; reflexivity).
  split; [exact Hreg |]. split; [exact Hnone |].
  destruct (stubber_fails_if_pyplot_blocked _ _ Hreg Hnone) as (Hres & _ & _ & Hlater).
  split; [exact Hres |].
  rewrite Hlater by (simpl; tauto). vm_compute. reflexivity.
Defined.

(** ** What the stubber leaves alone *)

Section Kept.

Variable l : loc.
Variable o : pyobj.

Lemma kept_ensure_stub n E :
  hoare (kept_unless_patched l o) (ensure_stub n)
        (fun a st => kept_unless_patched l o st /\ sys_modules st !! n = Some a) E.
Proof.
  intros st HK.
  destruct (ensure_stub_cases n st) as [(a & Ha & ->) | (Hnew & ->)]; simpl; [done |].
  split; [| apply with_new_stub_registry_eq].
  destruct HK as [HK | [HK | HK]].
  - left. by apply with_new_stub_heap_old.
  - right; left. by apply with_new_stub_registry_old.
  - right; right. by apply with_new_stub_registry_old.
Qed.

Lemma kept_setattr n a k v :
  n = "pandas" \/ n = "matplotlib.pyplot" ->
  hoare (fun st => kept_unless_patched l o st /\ sys_modules st !! n = Some a) (setattr a k v)
        (fun _ st => kept_unless_patched l o st /\ sys_modules st !! n = Some a)
        (fun _ st => kept_unless_patched l o st /\ sys_modules st !! n = Some a).
Proof.
  intros Hn st [HK Ha]. unfold setattr.
  destruct (heap st !! a) as [[attrs |] |] eqn:Hh; simpl; [| done..].
  split; [| done].
  destruct HK as [HK | HK]; [| by right].
  destruct (decide (a = l)) as [-> | Hne].
  - right. destruct Hn as [-> | ->]; auto.
  - left. simpl. by rewrite lookup_insert_ne.
Qed.

Lemma kept_ensure_stub_plain n E :
  hoare (kept_unless_patched l o) (ensure_stub n) (fun _ => kept_unless_patched l o) E.
Proof.
  eapply hoare_conseq; [| | | apply (kept_ensure_stub n E)]; simpl; auto. by intros ? ? [? _].
Qed.

Lemma stub_optional_packages_kept :
  hoare (kept_unless_patched l o) stub_optional_packages
        (fun _ => kept_unless_patched l o) (fun _ => kept_unless_patched l o).
Proof.
  unfold stub_optional_packages.
  eapply hoare_bind; [apply kept_ensure_stub | intros pd].
  eapply hoare_bind.
  { eapply (hoare_try _ _ _ (fun _ => kept_unless_patched l o)
              (fun st => kept_unless_patched l o st /\ sys_modules st !! "pandas" = Some pd));
      [auto 10 with quiet | |].
    - eapply hoare_post with
        (Q := fun _ st => kept_unless_patched l o st /\ sys_modules st !! "pandas" = Some pd)
        (E := fun _ st => kept_unless_patched l o st /\ sys_modules st !! "pandas" = Some pd);
        [| | repeat (eapply hoare_bind; [apply kept_setattr; by left | intros ?]);
             apply kept_setattr; by left].
      + by intros ? ? [? _].
      + auto.
    - intros st [HK _]. exact HK. }
  intros [].
  do 4 (eapply hoare_bind; [apply kept_ensure_stub_plain | intros ?]).
  eapply hoare_bind; [apply kept_ensure_stub | intros plt].
  do 8 (eapply hoare_bind;
        [eapply hoare_weaken_exn; [| apply (kept_setattr "matplotlib.pyplot"); by right];
         by intros ? ? [? _]
        | intros ?]).
  eapply hoare_bind.
  { eapply hoare_pre; [| apply (hoare_for_each (fun _ => kept_unless_patched l o)) with (done := [])].
    - by intros st [HK _].
    - intros x done_ _. eapply hoare_bind; [apply kept_ensure_stub_plain |].
      intros ?. apply (hoare_ret tt (fun _ => kept_unless_patched l o)). }
  intros [].
  do 3 (eapply hoare_bind; [apply kept_ensure_stub_plain | intros ?]).
  apply (hoare_ret tt (fun _ => kept_unless_patched l o)).
Qed.

End Kept.

(** X5. The stubber writes to no object but the ones it creates and the
    modules registered as [pandas] and [matplotlib.pyplot]: every other
    object that existed before is the same afterwards, whether the stubber
    returns or raises. It prints nothing and leaves [sys.path],
    [os.environ] and [sys.argv] alone. *)
Theorem stubber_writes_only_pandas_and_pyplot (st : state) (l : loc) (o : pyobj) :
  heap st !! l = Some o ->
  sys_modules (final (stub_optional_packages st)) !! "pandas" <> Some l ->
  sys_modules (final (stub_optional_packages st)) !! "matplotlib.pyplot" <> Some l ->
  heap (final (stub_optional_packages st)) !! l = Some o
  /\ log (stub_optional_packages st) = []
  /\ sys_path (final (stub_optional_packages st)) = sys_path st
  /\ environ (final (stub_optional_packages st)) = environ st
  /\ sys_argv (final (stub_optional_packages st)) = sys_argv st.
Proof.
  intros Hl Hpd Hplt.
  destruct (quiet_stub_optional_packages st) as (L & P & E & V & _).
  split; [| auto].
  pose proof (stub_optional_packages_kept l o st (or_introl Hl)) as Hh.
  destruct (res (stub_optional_packages st)); destruct Hh as [Hh | [Hh | Hh]]; done.
Qed.

Lemma stubber_writes_only_pandas_and_pyplot_witness :
  heap Demo.st_pandas !! 5%positive = Some (PyModule {[ "__name__" := VStr "DataFrame" ]})
  /\ sys_modules (final (stub_optional_packages Demo.st_pandas)) !! "pandas" <> Some 5%positive
  /\ sys_modules (final (stub_optional_packages Demo.st_pandas)) !! "matplotlib.pyplot"
     <> Some 5%positive
  /\ heap (final (stub_optional_packages Demo.st_pandas)) !! 5%positive
     = Some (PyModule {[ "__name__" := VStr "DataFrame" ]}).
Proof.
  assert (Hl : heap Demo.st_pandas !! 5%positive
               = Some (PyModule {[ "__name__" := VStr "DataFrame" ]}))
    by (vm_compute; reflexivity).
  assert (Hpd : sys_modules (final (stub_optional_packages Demo.st_pandas)) !! "pandas"
                <> Some 5%positive) by (vm_compute; discriminate).
  assert (Hplt : sys_modules (final (stub_optional_packages Demo.st_pandas))
                   !! "matplotlib.pyplot" <> Some 5%positive) by (vm_compute; discriminate).
  split; [exact Hl |]. split; [exact Hpd |]. split; [exact Hplt |].
  exact (proj1 (stubber_writes_only_pandas_and_pyplot _ _ _ Hl Hpd Hplt)).
Defined.

(** ** What the stubs offer *)

Lemma attr_of_set_heap_same st l attrs k v k' :
  heap st !! l = Some (PyModule attrs) ->
  attr_of (set_heap (insert l (PyModule (<[k := v]> attrs))) st) l k'
  = if decide (k = k') then Some v else attr_of st l k'.
Proof.
  intros Hl. unfold attr_of. simpl. rewrite lookup_insert_eq, Hl.
  destruct (decide (k = k')) as [-> | Hne].
  - apply lookup_insert_eq.
  - by rewrite lookup_insert_ne.
Qed.

Lemma attr_of_set_heap_other st l l' o k :
  l' <> l -> attr_of (set_heap (insert l' o) st) l k = attr_of st l k.
Proof. intros Hne. unfold attr_of. simpl. by rewrite lookup_insert_ne. Qed.

Section Surface.

Variable name : string.
Variable l : loc.

Lemma surface_ensure_stub kvs n E :
  hoare (surface name l kvs) (ensure_stub n) (fun _ => surface name l kvs) E.
Proof.
  intros st [Hreg Hattrs].
  destruct (ensure_stub_cases n st) as [(a & Ha & ->) | (Hnew & ->)]; simpl; [done |].
  split; [by apply with_new_stub_registry_old |].
  intros k v Hkv. apply with_new_stub_attr_old. auto.
Qed.

(** Assigning an attribute the surface does not mention, on any object. *)
Lemma surface_setattr_other kvs l' k v :
  Forall (fun kv => kv.1 <> k) kvs ->
  hoare (surface name l kvs) (setattr l' k v)
        (fun _ => surface name l kvs) (fun _ => surface name l kvs).
Proof.
  intros Hk st [Hreg Hattrs]. unfold setattr.
  destruct (heap st !! l') as [[attrs |] |] eqn:Hl'; simpl; [| done..].
  split; [done |]. intros k' v' Hkv.
  destruct (decide (l' = l)) as [-> | Hne].
  - rewrite attr_of_set_heap_same by done.
    rewrite decide_False; [auto |].
    rewrite Forall_forall in Hk. intros <-.
    exact (Hk (k, v') (proj2 (list_elem_of_In _ _) Hkv) eq_refl).
  - rewrite attr_of_set_heap_other by done. auto.
Qed.

(** Assigning a new attribute on the module itself. *)
Lemma surface_setattr_add kvs k v E :
  Forall (fun kv => kv.1 <> k) kvs ->
  hoare (fun st => is_module st l /\ surface name l kvs st) (setattr l k v)
        (fun _ st => is_module st l /\ surface name l ((k, v) :: kvs) st) E.
Proof.
  intros Hk st [[attrs Ha] [Hreg Hattrs]]. unfold setattr. rewrite Ha. simpl.
  split; [apply is_module_insert; by exists attrs |].
  split; [done |]. intros k' v' Hkv.
  rewrite attr_of_set_heap_same by done.
  destruct Hkv as [[= <- <-] | Hkv]; [by rewrite decide_True |].
  rewrite decide_False; [auto |].
  rewrite Forall_forall in Hk. intros <-.
  exact (Hk (k, v') (proj2 (list_elem_of_In _ _) Hkv) eq_refl).
Qed.

(** The same when nothing is known of the object: only a successful
    assignment is described. *)
Lemma surface_setattr_add_if_returns kvs k v :
  Forall (fun kv => kv.1 <> k) kvs ->
  hoare (surface name l kvs) (setattr l k v)
        (fun _ => surface name l ((k, v) :: kvs)) (fun _ _ => True).
Proof.
  intros Hk st [Hreg Hattrs].
  destruct (heap st !! l) as [[attrs |] |] eqn:Ha.
  - pose proof (surface_setattr_add kvs k v (fun _ _ => True) Hk st) as Hh.
    unfold setattr in *. rewrite Ha in *. simpl in *.
    apply Hh. split; [by exists attrs | done].
  - unfold setattr. by rewrite Ha.
  - unfold setattr. by rewrite Ha.
Qed.

End Surface.

Lemma surface_start name E :
  hoare (fun st => sys_modules st !! name = None \/ registered st name) (ensure_stub name)
        (fun l st => is_module st l /\ surface name l [] st) E.
Proof.
  intros st HU.
  destruct (ensure_stub_cases name st) as [(l & Hl & ->) | (Hn & ->)]; simpl.
  - destruct HU as [HU | (l' & Hl' & Hm)]; [congruence |].
    assert (l' = l) as -> by congruence.
    split; [exact Hm |]. split; [done | intros ? ? []].
  - split; [| split; [apply with_new_stub_registry_eq | intros ? ? []]].
    eexists. unfold with_new_stub. simpl. apply lookup_insert_eq.
Qed.

Lemma surface_start_any name E :
  hoare (fun _ => True) (ensure_stub name) (fun l => surface name l []) E.
Proof.
  intros st _.
  destruct (ensure_stub_cases name st) as [(l & Hl & ->) | (Hn & ->)]; simpl.
  - split; [done | intros ? ? []].
  - split; [apply with_new_stub_registry_eq | intros ? ? []].
Qed.

Lemma hoare_True {A} (m : Py A) : hoare (fun _ => True) m (fun _ _ => True) (fun _ _ => True).
Proof. intros st _. by destruct (res (m st)). Qed.

(** Solves the side condition "this attribute is not on the surface yet". *)
Ltac new_attribute := repeat constructor; simpl; discriminate.

Lemma stub_optional_packages_pandas :
  hoare (fun st => sys_modules st !! "pandas" = None \/ registered st "pandas")
        stub_optional_packages
        (fun _ st => exists pd, surface "pandas" pd pandas_surface st)
        (fun _ st => exists pd, surface "pandas" pd pandas_surface st).
Proof.
  unfold stub_optional_packages.
  eapply hoare_bind; [apply surface_start | intros pd].
  eapply hoare_post with
    (Q := fun _ => surface "pandas" pd pandas_surface)
    (E := fun _ => surface "pandas" pd pandas_surface); [eauto | eauto |].
  eapply hoare_bind with (Q := fun _ => surface "pandas" pd pandas_surface).
  { eapply (hoare_try _ _ _ _ (fun _ => False)); [auto 10 with quiet | | apply hoare_False].
    eapply hoare_post with
      (Q := fun _ st => is_module st pd /\ surface "pandas" pd pandas_surface st)
      (E := fun _ _ => False); [by intros ? ? [_ ?] | auto |].
    eapply hoare_bind; [apply surface_setattr_add; new_attribute | intros ?].
    eapply hoare_bind; [apply surface_setattr_add; new_attribute | intros ?].
    apply surface_setattr_add; new_attribute. }
  intros [].
  do 5 (eapply hoare_bind; [apply surface_ensure_stub | intros ?]).
  do 8 (eapply hoare_bind; [apply surface_setattr_other; new_attribute | intros ?]).
  eapply hoare_bind.
  { apply (hoare_for_each (fun _ => surface "pandas" pd pandas_surface)) with (done := []).
    intros x done_ _. eapply hoare_bind; [apply surface_ensure_stub |].
    intros ?. apply (hoare_ret tt (fun _ => surface "pandas" pd pandas_surface)). }
  intros [].
  do 3 (eapply hoare_bind; [apply surface_ensure_stub | intros ?]).
  apply (hoare_ret tt (fun _ => surface "pandas" pd pandas_surface)).
Qed.

Lemma stub_optional_packages_pyplot :
  hoare (fun _ => True) stub_optional_packages
        (fun _ st => exists plt, surface "matplotlib.pyplot" plt pyplot_surface st)
        (fun _ _ => True).
Proof.
  unfold stub_optional_packages.
  eapply hoare_bind; [apply hoare_True | intros pd].
  eapply hoare_bind; [apply hoare_True | intros []].
  do 4 (eapply hoare_bind; [apply hoare_True | intros ?]).
  eapply hoare_bind; [apply surface_start_any | intros plt].
  eapply hoare_post with
    (Q := fun _ => surface "matplotlib.pyplot" plt pyplot_surface)
    (E := fun _ _ => True); [eauto | auto |].
  do 8 (eapply hoare_bind; [apply surface_setattr_add_if_returns; new_attribute | intros ?]).
  eapply hoare_bind.
  { apply (hoare_for_each (fun _ => surface "matplotlib.pyplot" plt pyplot_surface))
      with (done := []).
    intros x done_ _. eapply hoare_bind; [apply surface_ensure_stub |].
    intros ?. apply (hoare_ret tt (fun _ => surface "matplotlib.pyplot" plt pyplot_surface)). }
  intros [].
  do 3 (eapply hoare_bind; [apply surface_ensure_stub | intros ?]).
  apply (hoare_ret tt (fun _ => surface "matplotlib.pyplot" plt pyplot_surface)).
Qed.

(** X6. Unless [pandas] is registered as something that is not a module,
    after the stubber the module registered as [pandas] - a new stub or the
    module that was there - has [options.display] with [max_columns] 10,
    [max_rows] 60 and [max_colwidth] 50, and [DataFrame] and [Series] are
    both the stub class [_DF]. This holds also when the stubber fails
    later on. *)
Theorem stubber_pandas_surface (st : state) :
  sys_modules st !! "pandas" = None \/ registered st "pandas" ->
  exists pd,
    sys_modules (final (stub_optional_packages st)) !! "pandas" = Some pd
    /\ attr_of (final (stub_optional_packages st)) pd "options"
       = Some (VNamespace [("display",
                            VNamespace [("max_columns", VInt 10); ("max_rows", VInt 60);
                                        ("max_colwidth", VInt 50)])])
    /\ attr_of (final (stub_optional_packages st)) pd "DataFrame" = Some _DF
    /\ attr_of (final (stub_optional_packages st)) pd "Series" = Some _DF.
Proof.
  intros HU. pose proof (stub_optional_packages_pandas st HU) as Hh.
  assert (Hs : exists pd, surface "pandas" pd pandas_surface (final (stub_optional_packages st)))
    by (destruct (res (stub_optional_packages st)); exact Hh).
  destruct Hs as (pd & Hreg & Hattrs). exists pd.
  split; [exact Hreg |].
  split; [apply Hattrs; simpl; tauto |].
  split; apply Hattrs; simpl; tauto.
Qed.

Lemma stubber_pandas_surface_witness :
  registered Demo.st_pandas "pandas"
  /\ sys_modules (final (stub_optional_packages Demo.st_pandas)) !! "pandas" = Some 4%positive
  /\ attr_of (final (stub_optional_packages Demo.st_pandas)) 4%positive "Series" = Some _DF.
Proof.
  assert (Hr : registered Demo.st_pandas "pandas").
  { exists 4%positive. split; [vm_compute; reflexivity | eexists; vm_compute; reflexivity]. }
  split; [exact Hr |].
  destruct (stubber_pandas_surface Demo.st_pandas (or_intror Hr)) as (pd & Hreg & _ & _ & Hs).
  assert (Hpd : pd = 4%positive).
  { assert (Hc : sys_modules (final (stub_optional_packages Demo.st_pandas)) !! "pandas"
                 = Some (4%positive : loc)) by (vm_compute; reflexivity).
    rewrite Hc in Hreg. by injection Hreg. }
  subst pd. split; [exact Hreg | exact Hs].
Defined.

(** X7. Whenever the stubber returns, the object registered as
    [matplotlib.pyplot] has the eight functions [figure], [plot],
    [imshow], [savefig], [close], [title], [subplot] and [axis], each of
    them the no-op [_noop]. *)
Theorem stubber_pyplot_surface (st : state) :
  res (stub_optional_packages st) = Ok tt ->
  exists plt,
    sys_modules (final (stub_optional_packages st)) !! "matplotlib.pyplot" = Some plt
    /\ forall f, In f pyplot_functions ->
         attr_of (final (stub_optional_packages st)) plt f = Some _noop.
Proof.
  intros Hres. pose proof (stub_optional_packages_pyplot st I) as Hh.
  rewrite Hres in Hh. destruct Hh as (plt & Hreg & Hattrs). exists plt.
  split; [exact Hreg |]. intros f Hf. apply Hattrs.
  simpl in Hf. simpl.
  repeat (destruct Hf as [<- | Hf]; [tauto |]). destruct Hf.
Qed.

Lemma stubber_pyplot_surface_witness :
  res (stub_optional_packages Demo.st0) = Ok tt
  /\ exists plt,
       sys_modules (final (stub_optional_packages Demo.st0)) !! "matplotlib.pyplot" = Some plt
       /\ attr_of (final (stub_optional_packages Demo.st0)) plt "axis" = Some _noop.
Proof.
  assert (Hres : res (stub_optional_packages Demo.st0) = Ok tt) by (vm_compute; reflexivity).
  split; [exact Hres |].
  destruct (stubber_pyplot_surface Demo.st0 Hres) as (plt & Hreg & Hattrs).
  exists plt. split; [exact Hreg |]. apply Hattrs. simpl. tauto.
Defined.

(** X18. The stubber never removes or redirects an entry of
    [sys.modules]: a name registered before is registered to the same
    object afterwards, and if that object was a module it still is one.
    This holds for every name, on the stubber's list or not, and also when
    the stubber fails. *)
Theorem stubber_keeps_registry (st : state) (name : string) (l : loc) :
  sys_modules st !! name = Some l ->
  sys_modules (final (stub_optional_packages st)) !! name = Some l
  /\ (is_module st l -> is_module (final (stub_optional_packages st)) l).
Proof.
  intros Hl.
  destruct (quiet_stub_optional_packages st) as (_ & _ & _ & _ & [Hreg Hmod] & _).
  split; [by apply Hreg | apply Hmod].
Qed.

Lemma stubber_keeps_registry_witness :
  sys_modules Demo.st_pandas !! "pandas" = Some 4%positive
  /\ sys_modules (final (stub_optional_packages Demo.st_pandas)) !! "pandas" = Some 4%positive.
Proof.
  assert (Hl : sys_modules Demo.st_pandas !! "pandas" = Some (4%positive : loc))
    by (vm_compute; reflexivity).
  split; [exact Hl |].
  exact (proj1 (stubber_keeps_registry Demo.st_pandas "pandas" 4%positive Hl)).
Defined.

(** ** More on the Environment Patcher *)

Lemma dict_setdefault_idem {V} (k : string) (v : V) (d : gmap string V) :
  dict_setdefault k v (dict_setdefault k v d) = dict_setdefault k v d.
Proof.
  unfold dict_setdefault. destruct (d !! k) eqn:E.
  - by rewrite E.
  - by rewrite lookup_insert_eq.
Qed.

Section PatchMore.

Variable H : host.

(** The patcher as a function on states. *)
Lemma patch_pathlib_only_eq (st : state) :
  patch_pathlib_only H st = Run [] (patch_final H st) (Ok tt).
Proof.
  unfold patch_pathlib_only, patch_final. rewrite bind_modify.
  unfold hasattr. rewrite bind_gets.
  set (st1 := set_sys_modules _ st).
  assert (E1 : heap st1 = heap st) by reflexivity. clearbody st1.
  rewrite E1.
  destruct (heap st !! pathlib H) as [[attrs |] |] eqn:Hh;
    [| rewrite andb_false_r; reflexivity ..].
  destruct (negb (bool_decide (os_name H = "nt")) && _); [| reflexivity].
  unfold try_except_Exception, bind, getattr, setattr. cbv zeta.
  rewrite E1, Hh.
  destruct (attrs !! "PosixPath"); simpl; [| reflexivity].
  rewrite E1, Hh. reflexivity.
Qed.

(** X8. The patcher touches two things only: the registry entry
    [pathlib._local] and the attribute [WindowsPath] of [pathlib]. Every
    other registry entry, every other object and every other attribute of
    [pathlib] is as before, and so are [sys.path], [os.environ] and
    [sys.argv]; nothing is printed. *)
Theorem patch_pathlib_only_frame (st : state) :
  (forall n, n <> "pathlib._local" ->
     sys_modules (final (patch_pathlib_only H st)) !! n = sys_modules st !! n)
  /\ (forall l, l <> pathlib H ->
        heap (final (patch_pathlib_only H st)) !! l = heap st !! l)
  /\ (forall k, k <> "WindowsPath" ->
        attr_of (final (patch_pathlib_only H st)) (pathlib H) k = attr_of st (pathlib H) k)
  /\ sys_path (final (patch_pathlib_only H st)) = sys_path st
  /\ environ (final (patch_pathlib_only H st)) = environ st
  /\ sys_argv (final (patch_pathlib_only H st)) = sys_argv st
  /\ log (patch_pathlib_only H st) = [].
Proof.
  rewrite patch_pathlib_only_eq. cbn [final log]. unfold patch_final. cbv zeta.
  assert (Hreg : forall n, n <> "pathlib._local" ->
            dict_setdefault "pathlib._local" (pathlib H) (sys_modules st) !! n
            = sys_modules st !! n).
  { intros n Hn. by apply setdefault_lookup_ne. }
  destruct (heap st !! pathlib H) as [[attrs |] |] eqn:Hh; try (simpl; by repeat split).
  destruct (negb _ && _); try (simpl; by repeat split).
  destruct (attrs !! "PosixPath") as [p |] eqn:Hp; try (simpl; by repeat split).
  simpl. split; [exact Hreg |]. split; [| split; [| done]].
  - intros l Hl. by rewrite lookup_insert_ne.
  - intros k Hk. unfold attr_of. simpl. rewrite lookup_insert_eq, Hh.
    by rewrite lookup_insert_ne.
Qed.


(** X9. The patch of [WindowsPath] is best effort: on Windows, or when
    [pathlib] has no [WindowsPath], or when it has no [PosixPath] (the
    [AttributeError] is swallowed), the patcher returns normally and no
    object is changed at all. *)
Theorem patch_pathlib_only_skips (st : state) :
  os_name H = "nt"
  \/ attr_of st (pathlib H) "WindowsPath" = None
  \/ attr_of st (pathlib H) "PosixPath" = None ->
  res (patch_pathlib_only H st) = Ok tt
  /\ heap (final (patch_pathlib_only H st)) = heap st.
Proof.
  intros Hskip. rewrite patch_pathlib_only_eq. cbn [final res]. split; [done |].
  unfold patch_final. cbv zeta. unfold attr_of in Hskip.
  destruct (heap st !! pathlib H) as [[attrs |] |] eqn:Hh; [| done..].
  destruct (negb _ && _) eqn:Hc; [| done].
  apply andb_true_iff in Hc as [Hnt Hw].
  apply negb_true_iff, bool_decide_eq_false in Hnt.
  apply bool_decide_eq_true in Hw as [w Hw].
  destruct Hskip as [Hs | [Hs | Hs]]; [done | congruence |].
  by rewrite Hs.
Qed.

(** X10. Patching twice is patching once: a second run of the patcher
    returns normally and leaves the state exactly as the first run left
    it. *)
Theorem patch_pathlib_only_idempotent (st : state) :
  patch_pathlib_only H (final (patch_pathlib_only H st))
  = Run [] (final (patch_pathlib_only H st)) (Ok tt).
Proof.
  rewrite (patch_pathlib_only_eq st). cbn [final].
  rewrite patch_pathlib_only_eq. f_equal.
  unfold patch_final. cbv zeta.
  destruct (heap st !! pathlib H) as [[attrs |] |] eqn:Hh.
  - destruct (negb (bool_decide (os_name H = "nt"))) eqn:Hnt; cbn [andb].
    + destruct (bool_decide (is_Some (attrs !! "WindowsPath"))) eqn:Hw.
      * destruct (attrs !! "PosixPath") as [p |] eqn:Hp.
        -- cbn [heap set_heap set_sys_modules sys_modules sys_path environ sys_argv].
           rewrite lookup_insert_eq. rewrite lookup_insert_eq.
           rewrite bool_decide_eq_true_2 by eauto. cbn [andb].
           rewrite lookup_insert_ne by done. rewrite Hp.
           unfold set_heap, set_sys_modules. cbn [heap sys_modules sys_path environ sys_argv].
           rewrite dict_setdefault_idem. by rewrite !insert_insert_eq.
        -- cbn [heap set_sys_modules]. rewrite Hh, Hw, Hp. cbn [andb].
           unfold set_sys_modules. cbn [heap sys_modules sys_path environ sys_argv].
           by rewrite dict_setdefault_idem.
      * cbn [heap set_sys_modules]. rewrite Hh, Hw. cbn [andb].
        unfold set_sys_modules. cbn [heap sys_modules sys_path environ sys_argv].
        by rewrite dict_setdefault_idem.
    + cbn [heap set_sys_modules]. rewrite Hh.
      unfold set_sys_modules. cbn [heap sys_modules sys_path environ sys_argv].
      by rewrite dict_setdefault_idem.
  - cbn [heap set_sys_modules]. rewrite Hh.
    unfold set_sys_modules. cbn [heap sys_modules sys_path environ sys_argv].
    by rewrite dict_setdefault_idem.
  - cbn [heap set_sys_modules]. rewrite Hh.
    unfold set_sys_modules. cbn [heap sys_modules sys_path environ sys_argv].
    by rewrite dict_setdefault_idem.
Qed.

End PatchMore.

Lemma patch_pathlib_only_frame_witness :
  "pathlib" <> "pathlib._local"
  /\ sys_modules (final (patch_pathlib_only Demo.pi Demo.st0)) !! "pathlib"
     = sys_modules Demo.st0 !! "pathlib".
Proof.
  assert (Hne : "pathlib" <> "pathlib._local") by discriminate.
  split; [exact Hne |].
  exact (proj1 (patch_pathlib_only_frame Demo.pi Demo.st0) "pathlib" Hne).
Defined.


Lemma patch_pathlib_only_skips_witness :
  attr_of Cases.st_no_posix (pathlib Demo.pi) "PosixPath" = None
  /\ res (patch_pathlib_only Demo.pi Cases.st_no_posix) = Ok tt
  /\ heap (final (patch_pathlib_only Demo.pi Cases.st_no_posix)) = heap Cases.st_no_posix.
Proof.
  assert (Hp : attr_of Cases.st_no_posix (pathlib Demo.pi) "PosixPath" = None)
    by (vm_compute; reflexivity).
  split; [exact Hp |].
  exact (patch_pathlib_only_skips Demo.pi Cases.st_no_posix (or_intror (or_intror Hp))).
Defined.

(** ** More on the module search path *)

Section RepoMore.

Variable H : host.

(** X12. Where the directory exists, a second call of
    [ensure_repo_on_path] returns the same directory and changes nothing,
    and the function never makes [sys.path] list an entry twice that it
    did not list twice before. *)
Theorem ensure_repo_on_path_idempotent (st : state) :
  isdir H (repo_dir H st) = true ->
  res (ensure_repo_on_path H st) = Ok (repo_dir H st)
  /\ ensure_repo_on_path H (final (ensure_repo_on_path H st))
     = Run [] (final (ensure_repo_on_path H st)) (Ok (repo_dir H st))
  /\ (NoDup (sys_path st) -> NoDup (sys_path (final (ensure_repo_on_path H st)))).
Proof.
  intros Hd.
  assert (Hsame : forall st', environ st' = environ st -> repo_dir H st' = repo_dir H st).
  { intros st' E. unfold repo_dir. by rewrite E. }
  rewrite (ensure_repo_on_path_eq H st). cbv zeta. rewrite Hd. cbn [negb final res].
  split; [done |].
  destruct (bool_decide (repo_dir H st ∈ sys_path st)) eqn:Hin.
  - split; [| done].
    rewrite ensure_repo_on_path_eq. cbv zeta. by rewrite Hd, Hin.
  - split.
    + rewrite ensure_repo_on_path_eq. cbv zeta.
      rewrite (Hsame (set_sys_path _ st)) by done. rewrite Hd. cbn [negb].
      rewrite bool_decide_eq_true_2; [done |]. simpl. apply list_elem_of_here.
    + intros Hnd. simpl. apply NoDup_cons. split; [| done].
      by apply bool_decide_eq_false in Hin.
Qed.

End RepoMore.

Lemma ensure_repo_on_path_idempotent_witness :
  isdir Demo.pi (repo_dir Demo.pi Demo.st0) = true
  /\ NoDup (sys_path Demo.st0)
  /\ NoDup (sys_path (final (ensure_repo_on_path Demo.pi Demo.st0)))
  /\ res (ensure_repo_on_path Demo.pi (final (ensure_repo_on_path Demo.pi Demo.st0)))
     = Ok "/home/pi/yolov5".
Proof.
  assert (Hd : isdir Demo.pi (repo_dir Demo.pi Demo.st0) = true) by (vm_compute; reflexivity).
  assert (Hnd : NoDup (sys_path Demo.st0))
    by (apply (bool_decide_unpack _); vm_compute; exact I).
  split; [exact Hd |]. split; [exact Hnd |].
  destruct (ensure_repo_on_path_idempotent Demo.pi Demo.st0 Hd) as (_ & Hagain & Hkeep).
  split; [exact (Hkeep Hnd) |].
  rewrite Hagain. vm_compute. reflexivity.
Defined.

(** ** More on [main] *)

Lemma keyed_ensure_stub names n E :
  hoare (keyed names) (ensure_stub n) (fun _ => keyed (n :: names)) E.
Proof.
  intros st K.
  destruct (ensure_stub_cases n st) as [(l & Hl & ->) | (Hn & ->)]; simpl.
  - intros n' [<- | Hin]; [eauto | auto].
  - intros n' [<- | Hin].
    + rewrite with_new_stub_registry_eq. eauto.
    + eapply keyed_extends; [by apply with_new_stub_extends | done | done].
Qed.

Lemma keyed_quiet {A} names (m : Py A) :
  quiet m -> hoare (keyed names) m (fun _ => keyed names) (fun _ _ => True).
Proof.
  intros Hq st K. destruct (Hq st) as (_ & _ & _ & _ & X & _).
  destruct (res (m st)); [| done]. by apply (keyed_extends names st).
Qed.

(** Whenever the stubber returns, its whole list is registered, together
    with what was registered before. *)
Lemma stub_optional_packages_keyed names :
  hoare (keyed names) stub_optional_packages
        (fun _ st => keyed names st /\ forall n, In n stub_list -> is_Some (sys_modules st !! n))
        (fun _ _ => True).
Proof.
  unfold stub_optional_packages.
  eapply hoare_bind; [apply keyed_ensure_stub | intros pd].
  eapply hoare_bind; [apply keyed_quiet; auto 10 with quiet | intros []].
  do 5 (eapply hoare_bind; [apply keyed_ensure_stub | intros ?]).
  do 8 (eapply hoare_bind; [apply keyed_quiet; auto with quiet | intros ?]).
  eapply hoare_bind.
  { apply (hoare_for_each keyed). intros x done_ _.
    eapply hoare_bind; [apply keyed_ensure_stub |].
    intros ?. apply (hoare_ret tt (fun _ => keyed (x :: done_))). }
  intros [].
  do 3 (eapply hoare_bind; [apply keyed_ensure_stub | intros ?]).
  intros st K. simpl. split.
  - intros n Hn. apply K. simpl. tauto.
  - intros n Hn. apply K. simpl in *. tauto.
Qed.

Section MainMore.

Variable H : host.

Lemma patch_keeps_pyplot_usable (st : state) :
  pyplot_usable st -> pyplot_usable (final (patch_pathlib_only H st)).
Proof.
  intros [Hn | Hr].
  - left. rewrite patch_pathlib_only_eq. cbn [final].
    assert (Hreg : sys_modules (patch_final H st)
                   = dict_setdefault "pathlib._local" (pathlib H) (sys_modules st)).
    { unfold patch_final. cbv zeta.
      destruct (heap st !! pathlib H) as [[attrs |] |]; [| done..].
      destruct (negb _ && _); [| done]. by destruct (attrs !! "PosixPath"). }
    rewrite Hreg. by rewrite setdefault_lookup_ne.
  - right. destruct (quiet_patch_pathlib_only H st) as (_ & _ & _ & _ & X & _).
    by apply (extends_registered st).
Qed.

Lemma patch_registers_alias (st : state) :
  is_Some (sys_modules (final (patch_pathlib_only H st)) !! "pathlib._local").
Proof.
  rewrite patch_pathlib_only_eq. cbn [final].
  assert (Hreg : sys_modules (patch_final H st)
                 = dict_setdefault "pathlib._local" (pathlib H) (sys_modules st)).
  { unfold patch_final. cbv zeta.
    destruct (heap st !! pathlib H) as [[attrs |] |]; [| done..].
    destruct (negb _ && _); [| done]. by destruct (attrs !! "PosixPath"). }
  rewrite Hreg, setdefault_lookup. eauto.
Qed.

(** What the registry holds once the stubber has returned inside [main]. *)
Lemma stub_run_registry (st : state) :
  res (stub_run H st) = Ok tt ->
  extends (after_import H st) (final (stub_run H st))
  /\ is_Some (sys_modules (final (stub_run H st)) !! "pathlib._local")
  /\ forall n, In n stub_list -> is_Some (sys_modules (final (stub_run H st)) !! n).
Proof.
  intros Hres. unfold stub_run in *.
  destruct (quiet_patch_pathlib_only H (after_import H st)) as (_ & _ & _ & _ & X1 & _).
  destruct (quiet_stub_optional_packages (final (patch_pathlib_only H (after_import H st))))
    as (_ & _ & _ & _ & X2 & _).
  split; [by eapply extends_trans |].
  assert (K : keyed ["pathlib._local"] (final (patch_pathlib_only H (after_import H st)))).
  { intros n [<- | []]. apply patch_registers_alias. }
  pose proof (stub_optional_packages_keyed _ _ K) as Hh. rewrite Hres in Hh.
  destruct Hh as [K' Hall]. split; [apply K'; by left | exact Hall].
Qed.

Lemma handoff_modules (args : Namespace) (st : state) :
  sys_modules (handoff H args st) = sys_modules (final (stub_run H st))
  /\ heap (handoff H args st) = heap (final (stub_run H st))
  /\ sys_path (handoff H args st) = sys_path (final (ensure_repo_on_path H (final (stub_run H st)))).
Proof.
  unfold handoff, set_sys_argv, set_environ. cbn [sys_modules heap sys_path].
  rewrite ensure_repo_on_path_eq. cbv zeta.
  destruct (negb _); [done |]. cbn [final]. by destruct (bool_decide _).
Qed.

(** X15. Only an [Exception] is turned into the hint about [pip]: when
    the import of [onnx] raises anything else ([KeyboardInterrupt],
    [SystemExit]), that exception leaves [main] as it is, with the status
    it gives, and the script has changed and printed nothing. *)
Theorem import_interrupt_propagates (args : Namespace) (st : state) (e : exn) :
  isfile H (weights_path H args st) = true ->
  res (py_import H "onnx" st) = Raise e ->
  is_Exception e = false ->
  res (main H args st) = Raise e
  /\ exit_status (res (main H args st)) = exn_status e
  /\ final (main H args st) = after_import H st
  /\ log (main H args st) = [].
Proof.
  intros Hf Hi He. rewrite main_eq. unfold main_stages. cbv zeta.
  rewrite Hf, Hi, He. simpl. tauto.
Qed.

(** X16. The exit for a missing framework directory comes after the patch
    and the stubs: in the state the process ends in, [pathlib._local] and
    every name of the stubber's list are registered and nothing that was
    registered is lost, while [sys.path], [os.environ] (the two toggles
    too) and [sys.argv] are still as the import of [onnx] left them. *)
Theorem missing_repo_leaves_stubs (args : Namespace) (st : state) (l : loc) :
  isfile H (weights_path H args st) = true ->
  res (py_import H "onnx" st) = Ok l ->
  res (stub_run H st) = Ok tt ->
  isdir H (repo_dir H (after_import H st)) = false ->
  is_Some (sys_modules (final (main H args st)) !! "pathlib._local")
  /\ (forall n, In n stub_list -> is_Some (sys_modules (final (main H args st)) !! n))
  /\ extends (after_import H st) (final (main H args st))
  /\ sys_path (final (main H args st)) = sys_path (after_import H st)
  /\ environ (final (main H args st)) = environ (after_import H st)
  /\ sys_argv (final (main H args st)) = sys_argv (after_import H st).
Proof.
  intros Hf Hi Hs Hd.
  destruct (stub_run_frame H st) as (_ & E & P & _).
  assert (Hrepo : repo_dir H (final (stub_run H st)) = repo_dir H (after_import H st)).
  { unfold repo_dir. by rewrite E. }
  destruct (stub_run_registry st Hs) as (X & Halias & Hall).
  assert (V : sys_argv (final (stub_run H st)) = sys_argv (after_import H st)).
  { unfold stub_run.
    destruct (quiet_patch_pathlib_only H (after_import H st)) as (_ & _ & _ & V1 & _).
    destruct (quiet_stub_optional_packages (final (patch_pathlib_only H (after_import H st))))
      as (_ & _ & _ & V2 & _).
    by rewrite V2, V1. }
  rewrite main_eq. unfold main_stages. cbv zeta.
  rewrite Hf, Hi, Hs, Hrepo, Hd. cbn [negb final].
  auto 10.
Qed.

(** X17. What the export script finds. At the hand-over [os.environ]
    differs from the one after the import of [onnx] in the two toggles at
    most; [sys.path] is that one, with the framework directory put in
    front if it was missing, so that the directory is on [sys.path];
    nothing that was registered in [sys.modules] is lost, and
    [pathlib._local] and every name of the stubber's list are registered. *)
Theorem handoff_environment (args : Namespace) (st : state) p sth :
  In (EvRunPath p sth) (log (main H args st)) ->
  (forall k, k <> "YOLOV5_AUTOINSTALL" -> k <> "ULTRALYTICS_NO_AUTOINSTALL" ->
     environ sth !! k = environ (after_import H st) !! k)
  /\ repo_dir H sth ∈ sys_path sth
  /\ (sys_path sth = sys_path (after_import H st)
      \/ sys_path sth = repo_dir H sth :: sys_path (after_import H st))
  /\ extends (after_import H st) sth
  /\ is_Some (sys_modules sth !! "pathlib._local")
  /\ (forall n, In n stub_list -> is_Some (sys_modules sth !! n)).
Proof.
  intros Hin.
  destruct (main_run_path H args st p sth Hin) as (-> & _ & _ & _ & Hs & Hd & _).
  destruct (stub_run_registry st Hs) as (X & Halias & Hall).
  destruct (handoff_modules args st) as (Hreg & Hheap & Hpath).
  destruct (stub_run_frame H st) as (_ & _ & P & _).
  destruct (ensure_repo_on_path_member H (final (stub_run H st)) Hd) as (_ & Hmem & Hnew & Hold).
  rewrite repo_dir_handoff, Hreg, Hpath.
  split; [intros k H1 H2; by apply handoff_environ_other |].
  split; [exact Hmem |]. split.
  - destruct (decide (repo_dir H (final (stub_run H st)) ∈ sys_path (final (stub_run H st))))
      as [Hyes | Hno].
    + left. by rewrite (Hold Hyes).
    + right. by rewrite (Hnew Hno), P.
  - split; [| auto]. destruct X as [X1 X2]. split.
    + intros n l Hl. rewrite Hreg. auto.
    + intros l [attrs Ha]. destruct (X2 l (ex_intro _ attrs Ha)) as [attrs' Ha'].
      exists attrs'. by rewrite Hheap.
Qed.

End MainMore.

(** ** The further properties of [main] on the concrete machine *)

Lemma import_interrupt_propagates_witness :
  isfile Cases.pi_interrupted (weights_path Cases.pi_interrupted Demo.args Demo.st0) = true
  /\ res (py_import Cases.pi_interrupted "onnx" Demo.st0) = Raise (BaseExc "KeyboardInterrupt")
  /\ res (main Cases.pi_interrupted Demo.args Demo.st0) = Raise (BaseExc "KeyboardInterrupt")
  /\ log (main Cases.pi_interrupted Demo.args Demo.st0) = [].
Proof.
  assert (Hf : isfile Cases.pi_interrupted
                 (weights_path Cases.pi_interrupted Demo.args Demo.st0) = true)
    by (vm_compute; reflexivity).
  assert (Hi : res (py_import Cases.pi_interrupted "onnx" Demo.st0)
               = Raise (BaseExc "KeyboardInterrupt")) by (vm_compute; reflexivity).
  split; [exact Hf |]. split; [exact Hi |].
  destruct (import_interrupt_propagates Cases.pi_interrupted Demo.args Demo.st0 _ Hf Hi eq_refl)
    as (Hres & _ & _ & Hlog).
  split; [exact Hres | exact Hlog].
Defined.

Lemma missing_repo_leaves_stubs_witness :
  isfile Demo.pi_no_repo (weights_path Demo.pi_no_repo Demo.args Demo.st0) = true
  /\ res (py_import Demo.pi_no_repo "onnx" Demo.st0) = Ok 4%positive
  /\ res (stub_run Demo.pi_no_repo Demo.st0) = Ok tt
  /\ isdir Demo.pi_no_repo (repo_dir Demo.pi_no_repo (after_import Demo.pi_no_repo Demo.st0))
     = false
  /\ is_Some (sys_modules (final (main Demo.pi_no_repo Demo.args Demo.st0)) !! "seaborn")
  /\ environ (final (main Demo.pi_no_repo Demo.args Demo.st0))
     = environ (after_import Demo.pi_no_repo Demo.st0).
Proof.
  assert (Hf : isfile Demo.pi_no_repo (weights_path Demo.pi_no_repo Demo.args Demo.st0) = true)
    by (vm_compute; reflexivity).
  assert (Hi : res (py_import Demo.pi_no_repo "onnx" Demo.st0) = Ok 4%positive)
    by (vm_compute; reflexivity).
  assert (Hs : res (stub_run Demo.pi_no_repo Demo.st0) = Ok tt) by (vm_compute; reflexivity).
  assert (Hd : isdir Demo.pi_no_repo
                 (repo_dir Demo.pi_no_repo (after_import Demo.pi_no_repo Demo.st0)) = false)
    by (vm_compute; reflexivity).
  split; [exact Hf |]. split; [exact Hi |]. split; [exact Hs |]. split; [exact Hd |].
  destruct (missing_repo_leaves_stubs Demo.pi_no_repo Demo.args Demo.st0 _ Hf Hi Hs Hd)
    as (_ & Hall & _ & _ & Henv & _).
  split; [apply Hall; simpl; tauto | exact Henv].
Defined.

Lemma handoff_environment_witness :
  In (EvRunPath "/home/pi/yolov5/export.py" (handoff Demo.pi Demo.args Demo.st0))
     (log (main Demo.pi Demo.args Demo.st0))
  /\ "HOME" <> "YOLOV5_AUTOINSTALL"
  /\ "HOME" <> "ULTRALYTICS_NO_AUTOINSTALL"
  /\ environ (handoff Demo.pi Demo.args Demo.st0) !! "HOME"
     = environ (after_import Demo.pi Demo.st0) !! "HOME"
  /\ is_Some (sys_modules (handoff Demo.pi Demo.args Demo.st0) !! "thop").
Proof.
  pose proof (demo_reaches_export Demo.load_installed Demo.export_returns eq_refl) as Hin.
  assert (H1 : "HOME" <> "YOLOV5_AUTOINSTALL") by discriminate.
  assert (H2 : "HOME" <> "ULTRALYTICS_NO_AUTOINSTALL") by discriminate.
  split; [exact Hin |]. split; [exact H1 |]. split; [exact H2 |].
  destruct (handoff_environment Demo.pi Demo.args Demo.st0 _ _ Hin)
    as (Henv & _ & _ & _ & _ & Hall).
  split; [exact (Henv "HOME" H1 H2) | apply Hall; simpl; tauto].
Defined.

(** * The whole of [main] *)

(** ** More equations for the monad *)

Lemma bind_assoc {A B C} (m : Py A) (k : A -> Py B) (h : B -> Py C) st :
  bind (bind m k) h st = bind m (fun a => bind (k a) h) st.
Proof.
  unfold bind. cbv zeta.
  destruct (res (m st)) as [a | e]; cbn [res final log]; [| done].
  destruct (res (k a (final (m st)))) as [b | e]; cbn [res final log]; [| done].
  by rewrite app_assoc.
Qed.



(** ** Computations that write nothing to the log *)

Lemma silent_ret {A} (a : A) : silent (ret a).
Proof. by intros st. Qed.

Lemma silent_raise {A} e : silent (@raise A e).
Proof. by intros st. Qed.

Lemma silent_gets {A} (f : state -> A) : silent (gets f).
Proof. by intros st. Qed.

Lemma silent_modify f : silent (modify f).
Proof. by intros st. Qed.

Lemma silent_foreign {A} (f : state -> state * result A) : silent (foreign f).
Proof. by intros st. Qed.

Lemma silent_py_import H name : silent (py_import H name).
Proof. intros st. apply py_import_log. Qed.


Lemma silent_bind {A B} (m : Py A) (k : A -> Py B) :
  silent m -> (forall a, silent (k a)) -> silent (bind m k).
Proof.
  intros Hm Hk st. unfold bind. cbv zeta.
  destruct (res (m st)) as [a | e]; cbn [log]; [| apply Hm].
  by rewrite Hm, Hk.
Qed.

Lemma silent_try_except {A} catches (body handler : Py A) :
  silent body -> silent handler -> silent (Whole.try_except catches body handler).
Proof.
  intros Hb Hh st. unfold Whole.try_except. cbv zeta.
  destruct (res (body st)) as [a | e]; [apply Hb |].
  destruct (catches e); cbn [log]; [| apply Hb]. by rewrite Hb, Hh.
Qed.

Lemma silent_try_except_Exception {A} (body handler : Py A) :
  silent body -> silent handler -> silent (try_except_Exception body handler).
Proof.
  intros Hb Hh st. unfold try_except_Exception. cbv zeta.
  destruct (res (body st)) as [a | e]; [apply Hb |].
  destruct (is_Exception e); cbn [log]; [| apply Hb]. by rewrite Hb, Hh.
Qed.

Create HintDb silent discriminated.
#[local] Hint Resolve silent_ret silent_raise silent_gets silent_modify silent_foreign
  silent_py_import silent_bind silent_try_except silent_try_except_Exception : silent.

Section WholeProperties.

Variable H : host.
Variable L : Whole.library.

Lemma silent_expanduser path : silent (Whole.expanduser H path).
Proof.
  unfold Whole.expanduser. destruct (negb _); [auto with silent |]. cbv zeta.
  apply silent_bind.
  - destruct (bool_decide _); [| auto 10 with silent].
    apply silent_bind; [auto with silent |]. intros env.
    destruct (env !! "HOME"); auto 10 with silent.
  - intros [h |]; auto with silent.
Qed.

Lemma silent_ensure_repo_on_path : silent (Whole.ensure_repo_on_path H).
Proof.
  unfold Whole.ensure_repo_on_path.
  apply silent_bind; [apply silent_expanduser |]. intros repo.
  apply silent_bind; [destruct (negb _); auto with silent |]. intros _.
  apply silent_bind; [auto with silent |]. intros path.
  apply silent_bind; [destruct (bool_decide _); auto with silent | auto with silent].
Qed.





End WholeProperties.
(** ** The steps of the whole [main] *)

Lemma bind_Ok {A B} (m : Py A) (k : A -> Py B) st a :
  res (m st) = Ok a ->
  bind m k st
  = Run (log (m st) ++ log (k a (final (m st))))%list
        (final (k a (final (m st)))) (res (k a (final (m st)))).
Proof. intros E. unfold bind. cbv zeta. by rewrite E. Qed.

Lemma bind_Raise {A B} (m : Py A) (k : A -> Py B) st e :
  res (m st) = Raise e -> bind m k st = Run (log (m st)) (final (m st)) (Raise e).
Proof. intros E. unfold bind. cbv zeta. by rewrite E. Qed.






Section WholeSteps.

Variable H : host.
Variable L : Whole.library.

(** Where no password database is asked, [Whole.expanduser] is the pure
    [expanduser]: for a path without a leading tilde, and for [~] or [~/...]
    when [HOME] is set. *)
Lemma whole_expanduser_pure path st :
  String.prefix "~" path = false
  \/ (PosixPath.find_sep_from_1 path = 1%nat /\ is_Some (environ st !! "HOME")) ->
  Whole.expanduser H path st = expanduser H path st.
Proof.
  unfold Whole.expanduser, expanduser, PosixPath.expanduser.
  intros [Hp | (Hi & h & Hh)].
  - by rewrite Hp.
  - destruct (String.prefix "~" path); [| done]. cbn [negb]. cbv zeta.
    rewrite Hi. rewrite bool_decide_eq_true_2 by done.
    rewrite bind_assoc, bind_gets, Hh, !bind_ret. unfold gets. by rewrite Hh.
Qed.

Lemma whole_expanduser_repo st :
  is_Some (environ st !! "HOME") ->
  Whole.expanduser H "~/yolov5" st = Run [] st (Ok (repo_dir H st)).
Proof. intros Hh. rewrite whole_expanduser_pure; [reflexivity | right; by split]. Qed.






End WholeSteps.
(** ** The whole [main]: early exit, framework directory, success *)

Section WholeMain.

Variable H : host.
Variable L : Whole.library.


(** X11. The framework directory, with the library code of line 7: nothing is
    printed; beyond what [os.path.expanduser] did (its import of [pwd]),
    [ensure_repo_on_path] leaves [sys.modules], the objects, [os.environ]
    and [sys.argv] alone, and [sys.path] is either as it was or has the
    directory, which was not on it, put in front; and where [HOME] is set,
    [os.path.expanduser] itself changes nothing. *)
Theorem ensure_repo_on_path_prepends_after_expanduser (st : state) :
  let st1 := final (Whole.expanduser H "~/yolov5" st) in
  let r := Whole.ensure_repo_on_path H st in
  log r = []
  /\ sys_modules (final r) = sys_modules st1
  /\ heap (final r) = heap st1
  /\ environ (final r) = environ st1
  /\ sys_argv (final r) = sys_argv st1
  /\ (sys_path (final r) = sys_path st1
      \/ exists repo, res r = Ok repo /\ isdir H repo = true /\ (repo ∉ sys_path st1)
                      /\ sys_path (final r) = repo :: sys_path st1)
  /\ (forall repo, res r = Ok repo -> isdir H repo = true /\ (repo ∈ sys_path (final r)))
  /\ (is_Some (environ st !! "HOME") -> st1 = st).
Proof.
  intros st1 r. split; [apply silent_ensure_repo_on_path |].
  assert (Hhome : is_Some (environ st !! "HOME") -> st1 = st).
  { intros Hh. subst st1. by rewrite whole_expanduser_repo. }
  subst r st1. unfold Whole.ensure_repo_on_path.
  destruct (res (Whole.expanduser H "~/yolov5" st)) as [repo | e] eqn:E.
  - rewrite (bind_Ok _ _ _ _ E). cbn [final res log].
    set (st1 := final (Whole.expanduser H "~/yolov5" st)) in *.
    destruct (isdir H repo) eqn:Hd; cbn [negb].
    + rewrite bind_ret, bind_gets.
      destruct (bool_decide (repo ∈ sys_path st1)) eqn:Hm.
      * rewrite !bind_ret. cbn [ret final res].
        apply bool_decide_eq_true_1 in Hm.
        split_and!; [done .. | by left | | done]. by intros ? [= <-].
      * rewrite bind_modify. cbn [ret final res set_sys_path sys_modules heap
          environ sys_argv sys_path].
        apply bool_decide_eq_false_1 in Hm.
        split_and!; [done .. | | | done].
        -- right. by exists repo.
        -- intros ? [= <-]. split; [done | apply list_elem_of_here].
    + rewrite bind_raise. cbn [final res]. split_and!; [done .. | by left | | done].
      intros ? [=].
  - rewrite (bind_Raise _ _ _ _ E). cbn [final res].
    split_and!; [done .. | by left | | done]. intros ? [=].
Qed.



End WholeMain.
(** ** The whole [main] on the concrete machine *)



Lemma ensure_repo_on_path_prepends_after_expanduser_witness :
  is_Some (environ Demo.st0 !! "HOME")
  /\ final (Whole.expanduser Demo.pi "~/yolov5" Demo.st0) = Demo.st0
  /\ sys_modules (final (Whole.ensure_repo_on_path Demo.pi Demo.st0)) = sys_modules Demo.st0
  /\ heap (final (Whole.ensure_repo_on_path Demo.pi Demo.st0)) = heap Demo.st0
  /\ environ (final (Whole.ensure_repo_on_path Demo.pi Demo.st0)) = environ Demo.st0
  /\ log (Whole.ensure_repo_on_path Demo.pi Demo.st0) = [].
Proof.
  assert (Hh : is_Some (environ Demo.st0 !! "HOME")) by (vm_compute; eauto).
  destruct (ensure_repo_on_path_prepends_after_expanduser Demo.pi Demo.st0)
    as (Hl & Hm & Hp & He & _ & _ & _ & Hhome).
  pose proof (Hhome Hh) as Hst. rewrite Hst in Hm, Hp, He.
  split; [exact Hh |]. split; [exact Hst |]. split; [exact Hm |]. split; [exact Hp |].
  split; [exact He | exact Hl].
Defined.

(** Without [HOME] the expansion of [~/yolov5] asks the password database:
    [pwd] is imported and registered, and [ensure_repo_on_path] returns the
    same directory. *)
Lemma ensure_repo_on_path_without_HOME_registers_pwd :
  environ Whole.st_no_home !! "HOME" = None
  /\ sys_modules Whole.st_no_home !! "pwd" = None
  /\ res (Whole.ensure_repo_on_path Demo.pi Whole.st_no_home) = Ok "/home/pi/yolov5"
  /\ sys_modules (final (Whole.ensure_repo_on_path Demo.pi Whole.st_no_home)) !! "pwd"
     = Some 4%positive
  /\ sys_path (final (Whole.ensure_repo_on_path Demo.pi Whole.st_no_home))
     = "/home/pi/yolov5" :: sys_path Whole.st_no_home.
Proof. split_and!; vm_compute; reflexivity. Qed.



(** [--help]: [argparse] prints the usage and ends the process with
    status 0; the script has done nothing, and the export script is not
    run. *)
Lemma help_exits_0_without_export :
  res (Whole.main Demo.pi Whole.cli_help Demo.st0) = Raise (SystemExit (ExitInt 0))
  /\ exit_status (res (Whole.main Demo.pi Whole.cli_help Demo.st0)) = 0%Z
  /\ log (Whole.main Demo.pi Whole.cli_help Demo.st0) = [].
Proof. split_and!; vm_compute; reflexivity. Qed.

(** A standard output that cannot encode the first text of line 135: the
    [print] raises after the two toggles were set and before the
    hand-over, so the process fails with the toggles set and the export
    script not run. *)
Lemma ascii_stdout_stops_before_export :
  res (Whole.main Demo.pi Whole.cli_best_ascii Demo.st0)
  = Raise (Exception "UnicodeEncodeError" INFO_calling)
  /\ exit_status (res (Whole.main Demo.pi Whole.cli_best_ascii Demo.st0)) = 1%Z
  /\ log (Whole.main Demo.pi Whole.cli_best_ascii Demo.st0) = []
  /\ environ Demo.st0 !! "YOLOV5_AUTOINSTALL" = None
  /\ environ (final (Whole.main Demo.pi Whole.cli_best_ascii Demo.st0)) !! "YOLOV5_AUTOINSTALL"
     = Some "0".
Proof. split_and!; vm_compute; reflexivity. Qed.
